(** * Particle force field of [js/context/webgl] (class [Canvas])

    A shallow embedding of the per-frame particle simulation: the force
    helpers [attraction] and [repulsion], the per-particle step
    [_vertexUpdate], the per-frame step [_update] and the allocation done by
    [boot].

    JavaScript numbers are IEEE 754 binary64 values.  The program is written
    once over an interface [Number] of the arithmetic it uses and is read at
    two instances:
    - [Float64]: Rocq's primitive binary64 floats, which compute exactly what
      the JavaScript engine computes (rounding, signed zeros, infinities and
      NaN included);
    - [Exact]: the real numbers, the arithmetic the specification has in mind
      when it speaks of real vectors and of magnitudes.

    Properties of the control flow and of the data flow are proved in every
    arithmetic; properties of the comparisons are proved on binary64, where
    they are stated for coordinates that are numbers, since every comparison
    with NaN is false; the falloff of [attraction] is proved over the reals.

    Three.js ([Vector3], [Math.randFloat], [Clock]) and the DOM are not part
    of the repository: the [Vector3] methods are written out from the
    library's definitions; the clock, the window size and the random source
    are inputs. *)

From Stdlib Require Import ZArith List Bool Lia.
From Stdlib Require Import Floats.
From Stdlib Require Import Reals Lra.
Import ListNotations.

Set Implicit Arguments.

(** ** The arithmetic of JavaScript numbers *)

Declare Scope js_scope.
Delimit Scope js_scope with js.

Class Number (T : Type) := {
  (** [lit p q] is the numeric literal whose decimal value is [p/q]. *)
  lit : Z -> Z -> T;
  nadd : T -> T -> T;
  nsub : T -> T -> T;
  nmul : T -> T -> T;
  ndiv : T -> T -> T;
  nneg : T -> T;
  (** [Math.sqrt] *)
  nsqrt : T -> T;
  (** [a < b]; the source's [a > b] is [nlt b a]. *)
  nlt : T -> T -> bool;
  (** the values that [||] and [if] treat as false: [0], [-0] and [NaN] *)
  falsy : T -> bool
}.

Notation "a + b" := (nadd a b) : js_scope.
Notation "a - b" := (nsub a b) : js_scope.
Notation "a * b" := (nmul a b) : js_scope.
Notation "a / b" := (ndiv a b) : js_scope.
Notation "- a" := (nneg a) : js_scope.
Notation "a <? b" := (nlt a b) : js_scope.
Notation "a >? b" := (nlt b a) : js_scope.

(** [Math.cos] and [Math.sin], which ECMAScript leaves
    implementation-approximated. *)
Class Trig (T : Type) := {
  Math_cos : T -> T;
  Math_sin : T -> T
}.

(** Binary64.  A literal [p/q] with small [p] and [q] is the correctly
    rounded quotient of two exactly represented integers, which is the
    double nearest to the decimal. *)
Definition float_of_Z (n : Z) : float :=
  match n with
  | Z0 => PrimFloat.zero
  | Zpos _ => PrimFloat.of_uint63 (Uint63.of_Z n)
  | Zneg p => PrimFloat.opp (PrimFloat.of_uint63 (Uint63.of_Z (Zpos p)))
  end.

#[export] Instance Float64 : Number float := {
  lit p q := PrimFloat.div (float_of_Z p) (float_of_Z q);
  nadd := PrimFloat.add;
  nsub := PrimFloat.sub;
  nmul := PrimFloat.mul;
  ndiv := PrimFloat.div;
  nneg := PrimFloat.opp;
  nsqrt := PrimFloat.sqrt;
  nlt := PrimFloat.ltb;
  falsy a := PrimFloat.is_nan a || PrimFloat.is_zero a
}.

(** Exact real arithmetic. *)
Definition Rltb (a b : R) : bool := if Rlt_dec a b then true else false.

#[export] Instance Exact : Number R := {
  lit p q := (IZR p / IZR q)%R;
  nadd := Rplus;
  nsub := Rminus;
  nmul := Rmult;
  ndiv := Rdiv;
  nneg := Ropp;
  nsqrt := sqrt;
  nlt := Rltb;
  falsy a := if Req_dec_T a 0%R then true else false
}.

(** ** Outcomes *)

(** The source has no [throw]: [TypeError] is what the engine raises when a
    property of [null] or [undefined] is read.  [InvalidConfiguration] and
    [DegenerateForceRadius] are the errors the specification names. *)
Inductive Error := TypeError | InvalidConfiguration | DegenerateForceRadius.

Inductive Result (A : Type) := Ok (a : A) | Err (e : Error).
Arguments Err {A} e.

(** ** Data *)

Section Model.

Context {T : Type} {num : Number T}.
Local Open Scope js_scope.

(** [THREE.Vector3] *)
Record Vector3 := Vec3 { x : T; y : T; z : T }.

(** [Vector3.length]: [Math.sqrt(x*x + y*y + z*z)] *)
Definition length (v : Vector3) : T :=
  nsqrt (x v * x v + y v * y v + z v * z v).

(** [Vector3.multiplyScalar] *)
Definition multiplyScalar (v : Vector3) (s : T) : Vector3 :=
  Vec3 (x v * s) (y v * s) (z v * s).

(** [Vector3.divideScalar]: [multiplyScalar(1 / s)] *)
Definition divideScalar (v : Vector3) (s : T) : Vector3 :=
  multiplyScalar v (lit 1 1 / s).

(** [Vector3.normalize]: [divideScalar(length() || 1)] *)
Definition normalize (v : Vector3) : Vector3 :=
  divideScalar v (if falsy (length v) then lit 1 1 else length v).

(** A vertex of the geometry: a [Vector3] (the position) to which [boot]
    attaches [velocity], [force], [friction] and [mass]. *)
Record Vertex := MkVertex {
  position : Vector3;
  velocity : Vector3;
  force : Vector3;
  friction : T;
  mass : T
}.

Definition set_position (v : Vertex) (p : Vector3) : Vertex :=
  MkVertex p (velocity v) (force v) (friction v) (mass v).
Definition set_velocity (v : Vertex) (w : Vector3) : Vertex :=
  MkVertex (position v) w (force v) (friction v) (mass v).
Definition set_force (v : Vertex) (f : Vector3) : Vertex :=
  MkVertex (position v) (velocity v) f (friction v) (mass v).

(** [_forcePhase: 'attraction' | 'repulsion'] *)
Inductive ForcePhase := Attraction | Repulsion.

(** [const defaults] *)
Record Defaults := MkDefaults {
  len : Z;
  depth : T;
  speed_horizontal : T;
  speed_vertical : T
}.

Definition defaults : Defaults :=
  MkDefaults 10000 (lit 0 1) (lit 1 1) (lit 3 2).

(** ** The force helpers *)

(** [attraction(vertex, forceX, forceY, forceZ, radius, scale)] *)
Definition attraction (vertex : Vertex) (forceX forceY forceZ radius scale : T)
  : Vertex :=
  let posOfForce := Vec3 forceX forceY forceZ in
  let diff := Vec3 (x (position vertex) - x posOfForce)
                   (y (position vertex) - y posOfForce)
                   (z (position vertex) - z posOfForce) in
  let length := length diff in
  let bAmCloseEnough :=
    if radius >? lit 0 1 then (if length >? radius then false else true)
    else true in
  if bAmCloseEnough then
    let pct := lit 1 1 - length / radius in
    let diff := normalize diff in
    let fx := x (force vertex) - x diff * scale * pct in
    let fy := y (force vertex) - y diff * scale * pct in
    let fz := fy - y diff * scale * pct in
    set_force vertex (Vec3 fx fy fz)
  else vertex.

(** [repulsion(vertex, forceX, forceY, forceZ, radius, scale)] *)
Definition repulsion (vertex : Vertex) (forceX forceY forceZ radius scale : T)
  : Vertex :=
  let posOfForce := Vec3 forceX forceY forceZ in
  let diff := Vec3 (x (position vertex) - x posOfForce)
                   (y (position vertex) - y posOfForce)
                   (z (position vertex) - z posOfForce) in
  let length := length diff in
  let bAmCloseEnough :=
    if radius >? lit 0 1 then (if length >? radius then false else true)
    else true in
  if bAmCloseEnough then
    let pct := lit 1 1 - length / radius in
    let diff := normalize diff in
    let fx := x (force vertex) + x diff * scale * pct in
    let fy := y (force vertex) + y diff * scale * pct in
    let fz := fy + y diff * scale * pct in
    set_force vertex (Vec3 fx fy fz)
  else vertex.

(** ** The per-particle step *)

(** [_vertexUpdate], first statement: the force accumulator is recombined
    with the velocity and the friction. *)
Definition recombineForce (vertex : Vertex) (deltaTime : T) : Vertex :=
  set_force vertex
    (Vec3
      ((x (force vertex) - x (velocity vertex) * friction vertex)
         * lit 41 100 * deltaTime)
      ((y (force vertex) - y (velocity vertex) * friction vertex)
         * lit 41 100 * deltaTime)
      ((z (force vertex) - z (velocity vertex) * friction vertex)
         * lit 41 100 * deltaTime)).

(** [_vertexUpdate], the branch on [this._forcePhase]. *)
Definition applyPhase (_forcePhase : ForcePhase) (vertex : Vertex)
    (posOfForce : Vector3) : Vertex :=
  match _forcePhase with
  | Attraction =>
      let vertex :=
        attraction vertex (x posOfForce) (y posOfForce) (z posOfForce)
          (lit 900 1) (lit 2 100) in
      repulsion vertex
        (x posOfForce * lit 1 2) (y posOfForce * lit 1 2)
        (z posOfForce * lit 1 2) (lit 200 1) (lit 2 100)
  | Repulsion =>
      let vertex :=
        attraction vertex
          (x posOfForce * - lit 1 2) (y posOfForce * - lit 1 2)
          (z posOfForce * - lit 1 2) (lit 500 1) (lit 2 100) in
      repulsion vertex (x posOfForce) (y posOfForce) (z posOfForce)
        (lit 300 1) (lit 2 100)
  end.

(** [_vertexUpdate], the six [+=] statements: the velocity first, then the
    position from the new velocity. *)
Definition integrate (vertex : Vertex) (deltaTime : T) : Vertex :=
  let vertex :=
    set_velocity vertex
      (Vec3 (x (velocity vertex) + x (force vertex) * lit 41 100 * deltaTime)
            (y (velocity vertex) + y (force vertex) * lit 41 100 * deltaTime)
            (z (velocity vertex) + z (force vertex) * lit 41 100 * deltaTime))
  in
  set_position vertex
    (Vec3 (x (position vertex) + x (velocity vertex) * deltaTime)
          (y (position vertex) + y (velocity vertex) * deltaTime)
          (z (position vertex) + z (velocity vertex) * deltaTime)).

Definition set_x (v : Vertex) (a : T) : Vertex :=
  set_position v (Vec3 a (y (position v)) (z (position v))).
Definition set_y (v : Vertex) (a : T) : Vertex :=
  set_position v (Vec3 (x (position v)) a (z (position v))).
Definition set_z (v : Vertex) (a : T) : Vertex :=
  set_position v (Vec3 (x (position v)) (y (position v)) a).

(** [_vertexUpdate], the six [if] statements of the boundary block, in the
    order of the source.  [ww] and [wh] are [this.ww] and [this.wh]. *)
Definition wrapAround (opts : Defaults) (ww wh : T) (vertex : Vertex)
  : Vertex :=
  let vertex :=
    if x (position vertex) >? ww then set_x vertex (- ww) else vertex in
  let vertex :=
    if y (position vertex) >? wh then set_y vertex (- wh) else vertex in
  let vertex :=
    if z (position vertex) >? depth opts then set_z vertex (- depth opts)
    else vertex in
  let vertex :=
    if x (position vertex) <? - ww then set_x vertex ww else vertex in
  let vertex :=
    if y (position vertex) <? - wh then set_y vertex wh else vertex in
  let vertex :=
    if z (position vertex) <? - depth opts then set_z vertex (depth opts)
    else vertex in
  vertex.

(** [_vertexUpdate(vertex, posOfForce, deltaTime)] *)
Definition _vertexUpdate (opts : Defaults) (ww wh : T)
    (_forcePhase : ForcePhase) (vertex : Vertex) (posOfForce : Vector3)
    (deltaTime : T) : Vertex :=
  let vertex := recombineForce vertex deltaTime in
  let vertex := applyPhase _forcePhase vertex posOfForce in
  let vertex := integrate vertex deltaTime in
  wrapAround opts ww wh vertex.

(** ** The simulator *)

(** The fields of [Canvas] the simulation reads and writes.  [vertices] is
    [this._app.geometry.vertices], with [None] for the [null] geometry of a
    canvas that was not booted; [_tick] starts as [null]. *)
Record Canvas := MkCanvas {
  vertices : option (list Vertex);
  _posOfForce : Vector3;
  _tick : option T;
  _forcePhase : ForcePhase;
  _frameCount : nat
}.

(** The field initialisers of the class. *)
Definition new_Canvas : Canvas :=
  MkCanvas None (Vec3 (lit 0 1) (lit 0 1) (lit 0 1)) None Attraction 1.

(** [THREE.Math.randFloat(low, high)], on one draw of [Math.random()] *)
Definition randFloat (draw low high : T) : T := low + draw * (high - low).

(** The allocation loop of [boot]: [n] vertices, the [i]-th one placed with
    the draws [k + 3i], [k + 3i + 1] and [k + 3i + 2] of [Math.random]. *)
Fixpoint boot_vertices (opts : Defaults) (ww wh : T) (random : nat -> T)
    (k n : nat) : list Vertex :=
  match n with
  | O => []
  | S n' =>
      let zero := Vec3 (lit 0 1) (lit 0 1) (lit 0 1) in
      MkVertex
        (Vec3 (randFloat (random k) (- ww) ww)
              (randFloat (random (S k)) (- wh) wh)
              (randFloat (random (S (S k))) (- depth opts) (depth opts)))
        zero zero (lit 1 100) (lit 1 1)
      :: boot_vertices opts ww wh random (S (S (S k))) n'
  end.

(** [boot()]; [innerWidth] and [innerHeight] are read from [window]. *)
Definition boot (opts : Defaults) (innerWidth innerHeight : T)
    (random : nat -> T) (this : Canvas) : Result Canvas :=
  let ww := innerWidth in
  let wh := innerHeight in
  Ok (MkCanvas
        (Some (boot_vertices opts ww wh random 0 (Z.to_nat (len opts))))
        (_posOfForce this) (_tick this) (_forcePhase this) (_frameCount this)).

(** What a frame reads from outside: the store's window size and the seconds
    that [this._clock.getDelta()] returns. *)
Record Frame := MkFrame {
  windowWidth : T;
  windowHeight : T;
  clockDelta : T
}.

(** The loop [for (let i = 0; i < defaults.len; i++)] of [_update] over
    [vertices[i]]; reading past the end of the array gives [undefined],
    whose [force] cannot be read. *)
Fixpoint update_loop (f : Vertex -> Vertex) (n : nat) (vs : list Vertex)
  : Result (list Vertex) :=
  match n with
  | O => Ok vs
  | S n' =>
      match vs with
      | [] => Err TypeError
      | v :: vs' =>
          match update_loop f n' vs' with
          | Ok vs'' => Ok (f v :: vs'')
          | Err e => Err e
          end
      end
  end.

(** [null] read as a number is [0] ([this._tick += ...] on the first
    frame). *)
Definition tick_value (t : option T) : T :=
  match t with None => lit 0 1 | Some t => t end.

Context {trig : Trig T}.

(** [_update(deltaTime)] *)
Definition _update (opts : Defaults) (env : Frame) (this : Canvas)
    (deltaTime : T) : Result Canvas :=
  match vertices this with
  | None => Err TypeError
  | Some vs =>
      let delta := clockDelta env in
      let ww := windowWidth env in
      let wh := windowHeight env in
      let tick := tick_value (_tick this) + delta * lit 1 10 * deltaTime in
      let posOfForce :=
        if tick <? lit 1 1 then
          Vec3 (Math_cos (tick * speed_horizontal opts) * lit 50 1 * deltaTime)
               (Math_sin (tick * speed_vertical opts) * lit 50 1 * deltaTime)
               (lit 0 1)
        else
          Vec3 (Math_cos (tick * speed_horizontal opts) * ww * - lit 1 2
                  * deltaTime)
               (Math_sin (tick * speed_vertical opts) * wh * lit 1 2
                  * deltaTime)
               (lit 0 1) in
      match
        update_loop
          (fun particle =>
             _vertexUpdate opts ww wh (_forcePhase this) particle posOfForce
               deltaTime)
          (Z.to_nat (len opts)) vs
      with
      | Err e => Err e
      | Ok vs' =>
          let phase :=
            if Nat.eqb (Nat.modulo (_frameCount this) (60 * 8)) 0 then
              match _forcePhase this with
              | Attraction => Repulsion
              | Repulsion => Attraction
              end
            else _forcePhase this in
          Ok (MkCanvas (Some vs') posOfForce (Some tick) phase
                (S (_frameCount this)))
      end
  end.

(** A run of the ticker: one call of [_update] per frame, in order. *)
Fixpoint run (opts : Defaults) (frames : list (Frame * T)) (this : Canvas)
  : Result Canvas :=
  match frames with
  | [] => Ok this
  | (env, deltaTime) :: rest =>
      match _update opts env this deltaTime with
      | Ok this' => run opts rest this'
      | Err e => Err e
      end
  end.

(** ** Vocabulary of the properties *)

Definition vadd (a b : Vector3) : Vector3 :=
  Vec3 (x a + x b) (y a + y b) (z a + z b).
Definition vsub (a b : Vector3) : Vector3 :=
  Vec3 (x a - x b) (y a - y b) (z a - z b).

(** The integration step in the words of the specification:
    [force := (force - velocity * friction) * 0.41 * deltaTime],
    [velocity += force * 0.41 * deltaTime],
    [position += velocity * deltaTime]. *)
Definition spec_force (force velocity : Vector3) (friction deltaTime : T)
  : Vector3 :=
  multiplyScalar
    (multiplyScalar (vsub force (multiplyScalar velocity friction))
       (lit 41 100))
    deltaTime.
Definition spec_velocity (velocity force : Vector3) (deltaTime : T) : Vector3 :=
  vadd velocity (multiplyScalar (multiplyScalar force (lit 41 100)) deltaTime).
Definition spec_position (position velocity : Vector3) (deltaTime : T)
  : Vector3 :=
  vadd position (multiplyScalar velocity deltaTime).

(** The state of a particle when the boundary block is reached. *)
Definition integrated (_forcePhase : ForcePhase) (vertex : Vertex)
    (posOfForce : Vector3) (deltaTime : T) : Vertex :=
  integrate
    (applyPhase _forcePhase (recombineForce vertex deltaTime) posOfForce)
    deltaTime.

(** One axis of the boundary block: the test against the positive bound,
    then the test against the negative one. *)
Definition wrap1 (bound a : T) : T :=
  let a := if a >? bound then - bound else a in
  if a <? - bound then bound else a.

(** The vector [diff] of the force helpers and the test they make. *)
Definition offset (vertex : Vertex) (forceX forceY forceZ : T) : Vector3 :=
  Vec3 (x (position vertex) - forceX) (y (position vertex) - forceY)
       (z (position vertex) - forceZ).
Definition closeEnough (diff : Vector3) (radius : T) : bool :=
  if radius >? lit 0 1 then (if length diff >? radius then false else true)
  else true.
Definition pct (diff : Vector3) (radius : T) : T :=
  lit 1 1 - length diff / radius.

(** A canvas after [boot]: the geometry holds the [len] vertices that the
    loop of [_update] visits. *)
Definition booted (opts : Defaults) (this : Canvas) : Prop :=
  exists vs, vertices this = Some vs /\ List.length vs = Z.to_nat (len opts).

(** The phase after [n] frames of a canvas that starts in [Attraction] with
    [_frameCount = 1]. *)
Definition phase_after (n : nat) : ForcePhase :=
  if Nat.even (n / (60 * 8)) then Attraction else Repulsion.

(** What the frames add to [_tick], in the order of the calls. *)
Definition elapsed (frames : list (Frame * T)) (start : T) : T :=
  fold_left
    (fun acc f => acc + clockDelta (fst f) * lit 1 10 * snd f) frames start.

(** The clock the specification describes: [deltaTime * 0.1] per call. *)
Definition spec_elapsed (frames : list (Frame * T)) (start : T) : T :=
  fold_left (fun acc f => acc + snd f * lit 1 10) frames start.

(** The vertex that [boot] allocates at index [i]. *)
Definition boot_vertex (opts : Defaults) (ww wh : T) (random : nat -> T)
    (i : nat) : Vertex :=
  MkVertex
    (Vec3 (randFloat (random (3 * i)%nat) (- ww) ww)
          (randFloat (random (3 * i + 1)%nat) (- wh) wh)
          (randFloat (random (3 * i + 2)%nat) (- depth opts) (depth opts)))
    (Vec3 (lit 0 1) (lit 0 1) (lit 0 1))
    (Vec3 (lit 0 1) (lit 0 1) (lit 0 1))
    (lit 1 100) (lit 1 1).

(** Two states of a particle that differ at most in the force accumulator. *)
Definition same_body (u v : Vertex) : Prop :=
  position u = position v /\ velocity u = velocity v
  /\ friction u = friction v /\ mass u = mass v.


End Model.

Arguments Vector3 T : clear implicits.
Arguments Vertex T : clear implicits.
Arguments Defaults T : clear implicits.
Arguments Canvas T : clear implicits.
Arguments Frame T : clear implicits.

#[export] Instance ExactTrig : Trig R := {
  Math_cos := cos;
  Math_sin := sin
}.

(** ** Vocabulary on binary64 *)

Definition is_number (a : float) : bool := negb (PrimFloat.is_nan a).

Definition numeric (p : Vector3 float) : bool :=
  is_number (x p) && is_number (y p) && is_number (z p).

Definition within (lo a hi : float) : bool :=
  PrimFloat.leb lo a && PrimFloat.leb a hi.

(** [-ww <= x <= ww], [-wh <= y <= wh] and [-depth <= z <= depth] *)
Definition contained (opts : Defaults float) (ww wh : float)
    (v : Vertex float) : bool :=
  within (PrimFloat.opp ww) (x (position v)) ww
  && within (PrimFloat.opp wh) (y (position v)) wh
  && within (PrimFloat.opp (depth opts)) (z (position v)) (depth opts).

(** A coordinate that is a number lies within the bound and its negation;
    nothing is said of a NaN, which every comparison rejects. *)
Definition number_within (bound a : float) : Prop :=
  is_number a = true -> within (PrimFloat.opp bound) a bound = true.

(** The boundary block on one axis: above the bound the coordinate becomes
    the negative bound, below the negative bound it becomes the bound, and
    in between it is kept. *)
Definition teleports (bound pre post : float) : Prop :=
  (PrimFloat.ltb bound pre = true -> post = PrimFloat.opp bound)
  /\ (PrimFloat.leb PrimFloat.zero bound = true ->
      PrimFloat.ltb pre (PrimFloat.opp bound) = true -> post = bound)
  /\ (PrimFloat.ltb bound pre = false ->
      PrimFloat.ltb pre (PrimFloat.opp bound) = false -> post = pre).

(** Sample data: a stand-in for [Math.cos] and [Math.sin], a particle at
    rest, a random source, the canvas that [boot] builds from it in a
    500 x 400 window and a frame that comes half a second after the last
    one. *)
Definition flatTrig : Trig float := {|
  Math_cos := fun _ => PrimFloat.one;
  Math_sin := fun _ => PrimFloat.zero
|}.

Definition origin : Vector3 float :=
  Vec3 PrimFloat.zero PrimFloat.zero PrimFloat.zero.

Definition resting (px py pz : float) : Vertex float :=
  MkVertex (Vec3 px py pz) origin origin (lit 1 100) (lit 1 1).

Definition sample_random (k : nat) : float := lit (Z.of_nat (k mod 8)) 8.

Definition sample_canvas : Canvas float :=
  MkCanvas
    (Some (boot_vertices defaults 500%float 400%float sample_random 0
             (Z.to_nat (len (@defaults float _)))))
    origin None Attraction 1.

Definition sample_frame : Frame float :=
  MkFrame 500%float 400%float (lit 1 2).

(** A slow machine: frames that come a tenth of a second apart, which the
    ticker reports as [deltaTime = 6]; and, to follow one particle of the
    sample canvas, the options with [len = 1] and the canvas that holds the
    first particle alone. *)
Definition hot_frame : Frame float :=
  MkFrame 500%float 400%float (lit 1 10).

Definition one_particle : Defaults float :=
  MkDefaults 1 (depth (@defaults float _))
    (speed_horizontal (@defaults float _))
    (speed_vertical (@defaults float _)).

Definition first_canvas : Canvas float :=
  MkCanvas (Some [boot_vertex defaults 500%float 400%float sample_random 0])
    origin None Attraction 1.

(** ** Vocabulary on the reals *)

Definition at_pos (px py pz : R) : Vertex R :=
  MkVertex (Vec3 px py pz) (Vec3 0%R 0%R 0%R) (Vec3 0%R 0%R 0%R)
    (1 / 100)%R 1%R.

(** ** The class [Particle]: gravity, friction and bouncing walls *)

(** [Math.PI] *)
Class Pi (T : Type) := { Math_PI : T }.

#[export] Instance Float64Pi : Pi float := {
  Math_PI := 0x1.921fb54442d18p+1%float
}.

#[export] Instance ExactPi : Pi R := { Math_PI := PI }.

Module Particle.

Section Model.

Context {T : Type} {num : Number T}.
Local Open Scope js_scope.

(** [this._options = { ...defaults, ...options }] *)
Record Options := MkOptions {
  len : Z;
  depth : T;
  size : T;
  friction : T
}.

(** [const defaults] *)
Definition defaults : Options :=
  MkOptions 10000 (lit 0 1) (lit 1 1) (lit 1 100).

(** The three parallel arrays [_geometry.vertices], [_velocity] and
    [_force], and the counter [_frame]. *)
Record State := MkState {
  vertices : list (Vector3 T);
  _velocity : list (Vector3 T);
  _force : list (Vector3 T);
  _frame : nat
}.

(** The field initialisers of the class. *)
Definition new_Particle : State := MkState [] [] [] 0.

(** [_resetForce(force)] *)
Definition _resetForce (force : Vector3 T) : Vector3 T :=
  Vec3 (lit 0 1) (lit 0 1) (z force).

(** [_addForce(force, forceX, forceY)] *)
Definition _addForce (force : Vector3 T) (forceX forceY : T) : Vector3 T :=
  Vec3 (x force + forceX) (y force + forceY) (z force).

(** [_updateForce(force, velocity)] *)
Definition _updateForce (opts : Options) (force velocity : Vector3 T)
  : Vector3 T :=
  Vec3 (x force - x velocity * friction opts)
       (y force - y velocity * friction opts)
       (z force).

(** [_updatePos(pos, force, velocity)]: the new [pos] and the new
    [velocity]. *)
Definition _updatePos (pos force velocity : Vector3 T)
  : Vector3 T * Vector3 T :=
  let velocity :=
    Vec3 (x velocity + x force) (y velocity + y force) (z velocity) in
  let pos := Vec3 (x pos + x velocity) (y pos + y velocity) (z pos) in
  (pos, velocity).

(** The four [if] statements of [_update], in the order of the source. *)
Definition bounce (ww wh : T) (pos v : Vector3 T) : Vector3 T * Vector3 T :=
  let '(pos, v) :=
    if x pos >? ww then
      (Vec3 ww (y pos) (z pos), Vec3 (x v * - lit 1 1) (y v) (z v))
    else (pos, v) in
  let '(pos, v) :=
    if x pos <? lit 0 1 then
      (Vec3 (lit 0 1) (y pos) (z pos), Vec3 (x v * - lit 1 1) (y v) (z v))
    else (pos, v) in
  let '(pos, v) :=
    if y pos >? wh then
      (Vec3 (x pos) wh (z pos), Vec3 (x v) (y v * - lit 1 1) (z v))
    else (pos, v) in
  let '(pos, v) :=
    if y pos <? lit 0 1 then
      (Vec3 (x pos) (lit 0 1) (z pos), Vec3 (x v) (y v * - lit 1 1) (z v))
    else (pos, v) in
  (pos, v).

(** The body of the loop of [_update] for one index: the new [pos], [f]
    and [v]. *)
Definition step (opts : Options) (ww wh : T) (pos f v : Vector3 T)
  : Vector3 T * Vector3 T * Vector3 T :=
  let f := _resetForce f in
  let f := _addForce f (lit 0 1) (- lit 1 2) in
  let f := _updateForce opts f v in
  let '(pos, v) := _updatePos pos f v in
  let '(pos, v) := bounce ww wh pos v in
  (pos, f, v).

(** The loop [for (let i = 0; i < this._options.len; i++)] of [_update]
    over the three arrays; an index past the end of one of them reads
    [undefined], whose [x] cannot be read or written. *)
Fixpoint update_loop (opts : Options) (ww wh : T) (n : nat)
    (ps fs vs : list (Vector3 T))
  : Result (list (Vector3 T) * list (Vector3 T) * list (Vector3 T)) :=
  match n with
  | O => Ok (ps, fs, vs)
  | S n' =>
      match ps, fs, vs with
      | pos :: ps', f :: fs', v :: vs' =>
          let '(pos, f, v) := step opts ww wh pos f v in
          match update_loop opts ww wh n' ps' fs' vs' with
          | Ok (ps'', fs'', vs'') => Ok (pos :: ps'', f :: fs'', v :: vs'')
          | Err e => Err e
          end
      | _, _, _ => Err TypeError
      end
  end.

(** [_update(deltaTime)]; [ww] and [wh] are [this.ww] and [this.wh]. *)
Definition _update (opts : Options) (ww wh : T) (this : State)
    (deltaTime : T) : Result State :=
  match
    update_loop opts ww wh (Z.to_nat (len opts)) (vertices this)
      (_force this) (_velocity this)
  with
  | Ok (ps, fs, vs) => Ok (MkState ps vs fs (S (_frame this)))
  | Err e => Err e
  end.

Context {trig : Trig T} {pi : Pi T}.

(** The loop of [setup]: [n] particles pushed on the three arrays, the
    [i]-th one made with the draws [k + 5i] to [k + 5i + 4] of
    [Math.random]. *)
Fixpoint setup_loop (opts : Options) (ww wh : T) (random : nat -> T)
    (k n : nat) (this : State) : State :=
  match n with
  | O => this
  | S n' =>
      let pos :=
        Vec3 (randFloat (random k) (lit 0 1) ww)
             (randFloat (random (1 + k)%nat) (lit 0 1) wh)
             (randFloat (random (2 + k)%nat) (- depth opts) (depth opts)) in
      let len := random (3 + k)%nat * lit 20 1 in
      let r := random (4 + k)%nat * Math_PI * lit 2 1 in
      let velocity := Vec3 (Math_cos r * len) (Math_sin r * len) (lit 0 1) in
      setup_loop opts ww wh random (5 + k) n'
        (MkState (vertices this ++ [pos])
           (_velocity this ++ [velocity])
           (_force this ++ [Vec3 (lit 0 1) (lit 0 1) (lit 0 1)])
           (_frame this))
  end.

(** [setup()]; [innerWidth] and [innerHeight] are read from [window]. *)
Definition setup (opts : Options) (innerWidth innerHeight : T)
    (random : nat -> T) (this : State) : State :=
  let ww := innerWidth in
  let wh := innerHeight in
  setup_loop opts ww wh random 0 (Z.to_nat (len opts)) this.

(** A run of the ticker on a window of constant size. *)
Fixpoint run (opts : Options) (ww wh : T) (deltas : list T) (this : State)
  : Result State :=
  match deltas with
  | [] => Ok this
  | deltaTime :: rest =>
      match _update opts ww wh this deltaTime with
      | Ok this' => run opts ww wh rest this'
      | Err e => Err e
      end
  end.

(** The three arrays hold the [len] entries that the loop visits. *)
Definition ready (opts : Options) (this : State) : Prop :=
  List.length (vertices this) = Z.to_nat (len opts)
  /\ List.length (_velocity this) = Z.to_nat (len opts)
  /\ List.length (_force this) = Z.to_nat (len opts).

End Model.

Arguments Options T : clear implicits.
Arguments State T : clear implicits.

End Particle.

(** ** The class of the wireframe sphere *)

Module Sphere.

Section Model.

Context {T : Type} {num : Number T}.
Local Open Scope js_scope.

(** [_update(deltaTime)] on [this._mesh.rotation] *)
Definition _update (rotation : Vector3 T) (deltaTime : T) : Vector3 T :=
  Vec3 (x rotation + lit 1 100) (y rotation + lit 1 100) (z rotation).

(** A run of the ticker. *)
Fixpoint run (deltas : list T) (rotation : Vector3 T) : Vector3 T :=
  match deltas with
  | [] => rotation
  | deltaTime :: rest => run rest (_update rotation deltaTime)
  end.

End Model.

End Sphere.

(** ** Vocabulary of the further properties *)

(** The bouncing walls on one axis, for binary64: above [hi] the coordinate
    becomes [hi], below zero it becomes zero. *)
Definition clamp1 (hi a : float) : float :=
  let a := if PrimFloat.ltb hi a then hi else a in
  if PrimFloat.ltb a PrimFloat.zero then PrimFloat.zero else a.

(** The velocity component that goes with [clamp1]: multiplied by [-1] at
    each wall that the coordinate [a] has passed. *)
Definition reflect1 (hi a w : float) : float :=
  let w := if PrimFloat.ltb hi a then PrimFloat.mul w (- lit 1 1)%js else w in
  let a := if PrimFloat.ltb hi a then hi else a in
  if PrimFloat.ltb a PrimFloat.zero then PrimFloat.mul w (- lit 1 1)%js
  else w.

(** A wall of [Particle] on one axis, for the bound [hi] that is not
    negative: a coordinate [a] above [hi] becomes [hi] and one below zero
    becomes zero, with the velocity component [w] multiplied by [-1]; any
    other coordinate and its velocity are kept. *)
Definition bounces (hi a a' w w' : float) : Prop :=
  (PrimFloat.ltb hi a = true ->
   a' = hi /\ w' = PrimFloat.mul w (- lit 1 1)%js)
  /\ (PrimFloat.ltb a PrimFloat.zero = true ->
      a' = PrimFloat.zero /\ w' = PrimFloat.mul w (- lit 1 1)%js)
  /\ (PrimFloat.ltb hi a = false -> PrimFloat.ltb a PrimFloat.zero = false ->
      a' = a /\ w' = w).

(** A particle system of two particles, one of them about to leave through
    the right wall of a 500 x 400 window. *)
Definition sample_particles : Particle.State float :=
  Particle.MkState
    [Vec3 499%float 10%float 0%float; Vec3 20%float 1%float 0%float]
    [Vec3 3%float 0%float 0%float; Vec3 0%float (-4)%float 0%float]
    [Vec3 0%float 0%float 0%float; Vec3 7%float 7%float 0%float]
    0.

Definition sample_options : Particle.Options float :=
  Particle.MkOptions 2 0%float 1%float (lit 1 100).

(** What the loop of [Particle._update] computes on three arrays of the
    same length: the body of the loop at each index. *)
Definition particle_steps {T : Type} {num : Number T}
    (opts : Particle.Options T) (ww wh : T) (ps fs vs : list (Vector3 T))
  : list (Vector3 T * Vector3 T * Vector3 T) :=
  map (fun t => Particle.step opts ww wh (fst t) (fst (snd t)) (snd (snd t)))
    (combine ps (combine fs vs)).

(** A frame of [Canvas] whose clock reading and [deltaTime] are not
    negative. *)
Definition forward (f : Frame R * R) : Prop :=
  (0 <= clockDelta (fst f))%R /\ (0 <= snd f)%R.

(** Sample data over the reals: a random source, the canvas that [boot]
    builds from it in a 500 x 400 window, and a frame that comes a sixtieth
    of a second after the last one. *)
Definition exact_random (k : nat) : R := (1 / 2)%R.

Definition exact_canvas : Canvas R :=
  MkCanvas
    (Some (boot_vertices defaults 500%R 400%R exact_random 0
             (Z.to_nat (len (@defaults R _)))))
    (Vec3 0%R 0%R 0%R) None Attraction 1.

Definition exact_frame : Frame R := MkFrame 500%R 400%R (1 / 60)%R.

(** The bounds of [Canvas] over the reals. *)
Definition inside (opts : Defaults R) (ww wh : R) (v : Vertex R) : Prop :=
  (- ww <= x (position v) <= ww)%R
  /\ (- wh <= y (position v) <= wh)%R
  /\ (- depth opts <= z (position v) <= depth opts)%R.

(** * Properties that hold in every arithmetic *)

Section Generic.

Context {T : Type} {num : Number T}.
Local Open Scope js_scope.

Ltac split_ifs :=
  repeat (cbn;
          match goal with
          | |- context [if ?c then _ else _] =>
              lazymatch c with
              | context [if _ then _ else _] => fail
              | _ => destruct c
              end
          end); cbn.

Lemma update_loop_map (f : Vertex T -> Vertex T) (vs : list (Vertex T)) :
  update_loop f (List.length vs) vs = Ok (map f vs).
Proof.
  induction vs as [|v vs IH]; cbn; [reflexivity|].
  now rewrite IH.
Qed.

Lemma wrapAround_position (opts : Defaults T) (ww wh : T) (v : Vertex T) :
  position (wrapAround opts ww wh v)
  = Vec3 (wrap1 ww (x (position v))) (wrap1 wh (y (position v)))
         (wrap1 (depth opts) (z (position v))).
Proof.
  unfold wrapAround, wrap1, set_x, set_y, set_z, set_position.
  destruct v as [[px py pz] vel f fr m]; cbn.
  split_ifs; reflexivity.
Qed.

Lemma wrapAround_rest (opts : Defaults T) (ww wh : T) (v : Vertex T) :
  velocity (wrapAround opts ww wh v) = velocity v
  /\ force (wrapAround opts ww wh v) = force v
  /\ friction (wrapAround opts ww wh v) = friction v
  /\ mass (wrapAround opts ww wh v) = mass v.
Proof.
  unfold wrapAround, set_x, set_y, set_z, set_position.
  destruct v as [[px py pz] vel f fr m]; cbn.
  split_ifs; auto.
Qed.

Lemma attraction_eq (v : Vertex T) (cx cy cz radius scale : T) :
  attraction v cx cy cz radius scale
  = if closeEnough (offset v cx cy cz) radius then
      let n := normalize (offset v cx cy cz) in
      let p := pct (offset v cx cy cz) radius in
      let fy := y (force v) - y n * scale * p in
      set_force v
        (Vec3 (x (force v) - x n * scale * p) fy (fy - y n * scale * p))
    else v.
Proof. reflexivity. Qed.

Lemma repulsion_eq (v : Vertex T) (cx cy cz radius scale : T) :
  repulsion v cx cy cz radius scale
  = if closeEnough (offset v cx cy cz) radius then
      let n := normalize (offset v cx cy cz) in
      let p := pct (offset v cx cy cz) radius in
      let fy := y (force v) + y n * scale * p in
      set_force v
        (Vec3 (x (force v) + x n * scale * p) fy (fy + y n * scale * p))
    else v.
Proof. reflexivity. Qed.

Lemma attraction_rest (v : Vertex T) (cx cy cz radius scale : T) :
  same_body (attraction v cx cy cz radius scale) v.
Proof.
  rewrite attraction_eq. destruct (closeEnough _ _); repeat split.
Qed.

Lemma repulsion_rest (v : Vertex T) (cx cy cz radius scale : T) :
  same_body (repulsion v cx cy cz radius scale) v.
Proof.
  rewrite repulsion_eq. destruct (closeEnough _ _); repeat split.
Qed.

Lemma same_body_trans (u v w : Vertex T) :
  same_body u v -> same_body v w -> same_body u w.
Proof. unfold same_body. intuition congruence. Qed.

Lemma applyPhase_rest (phase : ForcePhase) (v : Vertex T) (pf : Vector3 T) :
  same_body (applyPhase phase v pf) v.
Proof.
  destruct phase; cbn [applyPhase];
    (eapply same_body_trans; [apply repulsion_rest | apply attraction_rest]).
Qed.

(** *** Integration *)

(** C3.  In [_vertexUpdate] the force accumulator is first recombined as
    [(force - velocity * friction) * 0.41 * deltaTime]; the phase
    contributions change nothing but the force; then the velocity becomes
    [velocity + force * 0.41 * deltaTime] for the force left by the phase
    contributions, and the position becomes [position + velocity * deltaTime]
    for the new velocity; the boundary block comes last and keeps the
    velocity and the force. *)
Theorem integration_equations (opts : Defaults T) (ww wh : T)
    (phase : ForcePhase) (v : Vertex T) (pf : Vector3 T) (dt : T) :
  let recombined := recombineForce v dt in
  let forced := applyPhase phase recombined pf in
  let result := _vertexUpdate opts ww wh phase v pf dt in
  force recombined = spec_force (force v) (velocity v) (friction v) dt
  /\ velocity result = spec_velocity (velocity v) (force forced) dt
  /\ position (integrated phase v pf dt)
     = spec_position (position v) (velocity result) dt
  /\ force result = force forced
  /\ result = wrapAround opts ww wh (integrated phase v pf dt).
Proof.
  cbv zeta.
  destruct (applyPhase_rest phase (recombineForce v dt) pf)
    as (Hp & Hv & _ & _).
  destruct (wrapAround_rest opts ww wh (integrated phase v pf dt))
    as (Wv & Wf & _ & _).
  change (_vertexUpdate opts ww wh phase v pf dt)
    with (wrapAround opts ww wh (integrated phase v pf dt)).
  rewrite Wv, Wf.
  unfold integrated, integrate; cbn.
  rewrite Hp, Hv; cbn.
  repeat split.
Qed.

(** *** The helpers write [force.z] from [force.y] *)

(** C5, as amended.  When the in-radius branch runs, [attraction] assigns
    [force.z] the new [force.y] minus [diff.y * scale * pct] and [repulsion]
    assigns it the new [force.y] plus [diff.y * scale * pct], for the
    normalized [diff]: neither reads the former [force.z] nor the [z]
    component of the normalized [diff]. *)
Theorem z_force_from_y (v : Vertex T) (cx cy cz radius scale : T) :
  closeEnough (offset v cx cy cz) radius = true ->
  let n := normalize (offset v cx cy cz) in
  let p := pct (offset v cx cy cz) radius in
  let a := force (attraction v cx cy cz radius scale) in
  let r := force (repulsion v cx cy cz radius scale) in
  y a = y (force v) - y n * scale * p
  /\ z a = y a - y n * scale * p
  /\ y r = y (force v) + y n * scale * p
  /\ z r = y r + y n * scale * p.
Proof.
  intros H. cbv zeta. rewrite attraction_eq, repulsion_eq, H. cbn.
  repeat split.
Qed.

(** *** Allocation *)

Lemma boot_vertices_length (opts : Defaults T) (ww wh : T) (random : nat -> T)
    (k n : nat) :
  List.length (boot_vertices opts ww wh random k n) = n.
Proof.
  revert k. induction n as [|n IH]; intros k; cbn; [reflexivity|].
  now rewrite IH.
Qed.

Lemma boot_vertices_nth (opts : Defaults T) (ww wh : T) (random : nat -> T)
    (n : nat) :
  forall k i, (i < n)%nat ->
  nth_error (boot_vertices opts ww wh random (3 * k) n) i
  = Some (boot_vertex opts ww wh random (k + i)).
Proof.
  induction n as [|n IH]; intros k i Hi; [lia|].
  destruct i as [|i]; cbn [boot_vertices nth_error].
  - unfold boot_vertex. rewrite Nat.add_0_r.
    replace (3 * k + 1)%nat with (S (3 * k)) by lia.
    replace (3 * k + 2)%nat with (S (S (3 * k))) by lia. reflexivity.
  - replace (S (S (S (3 * k)))) with (3 * S k)%nat by lia.
    rewrite IH by lia. f_equal. f_equal. lia.
Qed.

(** C6, as amended.  [boot] validates nothing and raises nothing: for every
    particle count and window size it returns a canvas whose geometry holds
    [len] vertices (none when [len <= 0]), the vertex of index [i] placed by
    the draws [3i], [3i + 1] and [3i + 2] of the random source, with zero
    velocity, zero force, friction [0.01] and mass [1]; the other fields of
    the canvas are kept. *)
Theorem boot_allocates (opts : Defaults T) (innerWidth innerHeight : T)
    (random : nat -> T) (this : Canvas T) :
  exists vs,
    boot opts innerWidth innerHeight random this
    = Ok (MkCanvas (Some vs) (_posOfForce this) (_tick this)
            (_forcePhase this) (_frameCount this))
    /\ List.length vs = Z.to_nat (len opts)
    /\ forall i, (i < Z.to_nat (len opts))%nat ->
         nth_error vs i
         = Some (boot_vertex opts innerWidth innerHeight random i).
Proof.
  eexists. split; [reflexivity|]. split.
  - apply boot_vertices_length.
  - intros i Hi.
    apply (boot_vertices_nth opts innerWidth innerHeight random 0 Hi).
Qed.

Lemma boot_booted (opts : Defaults T) (innerWidth innerHeight : T)
    (random : nat -> T) (this : Canvas T) :
  exists c, boot opts innerWidth innerHeight random this = Ok c
            /\ booted opts c /\ _tick c = _tick this
            /\ _forcePhase c = _forcePhase this
            /\ _frameCount c = _frameCount this.
Proof.
  eexists. split; [reflexivity|]. cbn. repeat split.
  eexists. split; [reflexivity|]. apply boot_vertices_length.
Qed.

(** *** One frame *)

Context {trig : Trig T}.

Lemma update_booted (opts : Defaults T) (env : Frame T) (this : Canvas T)
    (dt : T) :
  booted opts this ->
  exists vs this',
    vertices this = Some vs
    /\ _update opts env this dt = Ok this'
    /\ vertices this'
       = Some (map (fun particle =>
                      _vertexUpdate opts (windowWidth env) (windowHeight env)
                        (_forcePhase this) particle (_posOfForce this') dt) vs)
    /\ _tick this'
       = Some (tick_value (_tick this) + clockDelta env * lit 1 10 * dt)
    /\ _forcePhase this'
       = (if Nat.eqb (Nat.modulo (_frameCount this) (60 * 8)) 0 then
            match _forcePhase this with
            | Attraction => Repulsion
            | Repulsion => Attraction
            end
          else _forcePhase this)
    /\ _frameCount this' = S (_frameCount this)
    /\ booted opts this'.
Proof.
  intros (vs & Hvs & Hlen). exists vs.
  unfold _update. rewrite Hvs, <- Hlen, update_loop_map.
  eexists. split; [reflexivity|]. split; [reflexivity|].
  cbn -[Nat.modulo Nat.mul]. repeat split.
  eexists. split; [reflexivity|]. now rewrite length_map.
Qed.

(** *** Phase cadence *)

Lemma div_succ (n : nat) :
  (S n / 480 = n / 480 + (if Nat.eqb (S n mod 480) 0 then 1 else 0))%nat.
Proof.
  pose proof (Nat.div_mod_eq n 480) as Hn.
  pose proof (Nat.mod_upper_bound n 480 ltac:(lia)) as Hr.
  pose proof (Nat.div_mod_eq (S n) 480) as Hs.
  pose proof (Nat.mod_upper_bound (S n) 480 ltac:(lia)) as Hsr.
  destruct (Nat.eqb (S n mod 480) 0) eqn:E.
  - apply Nat.eqb_eq in E. lia.
  - apply Nat.eqb_neq in E. lia.
Qed.

Lemma phase_after_succ (n : nat) :
  phase_after (S n)
  = if Nat.eqb (S n mod (60 * 8)) 0 then
      match phase_after n with
      | Attraction => Repulsion
      | Repulsion => Attraction
      end
    else phase_after n.
Proof.
  unfold phase_after. change (60 * 8)%nat with 480%nat.
  rewrite div_succ.
  destruct (Nat.eqb (S n mod 480) 0).
  - rewrite Nat.add_1_r, Nat.even_succ, <- Nat.negb_even.
    now destruct (Nat.even (n / 480)).
  - now rewrite Nat.add_0_r.
Qed.

Lemma run_phase (opts : Defaults T) (frames : list (Frame T * T)) :
  forall (this : Canvas T) (n : nat),
  booted opts this ->
  _frameCount this = S n ->
  _forcePhase this = phase_after n ->
  exists this',
    run opts frames this = Ok this'
    /\ _frameCount this' = S (n + List.length frames)
    /\ _forcePhase this' = phase_after (n + List.length frames).
Proof.
  induction frames as [|[env dt] frames IH]; intros this n Hb Hc Hp.
  - exists this. cbn. rewrite Nat.add_0_r. auto.
  - destruct (update_booted env dt Hb)
      as (vs & this1 & _ & Hu & _ & _ & Hp1 & Hc1 & Hb1).
    cbn [run]. rewrite Hu.
    destruct (IH this1 (S n) Hb1) as (this' & Hr & Hc' & Hp').
    + now rewrite Hc1, Hc.
    + rewrite Hp1, Hc, Hp. symmetry. apply phase_after_succ.
    + exists this'. cbn [List.length].
      replace (n + S (List.length frames))%nat
        with (S n + List.length frames)%nat by lia.
      auto.
Qed.

(** C4.  A canvas starts in [Attraction]; after [n] frames its phase is
    [Attraction] when [n / 480] is even and [Repulsion] when it is odd: still
    [Attraction] after 479 frames, [Repulsion] after 480, still [Repulsion]
    after 959 and [Attraction] again after 960.  Every run of frames
    completes. *)
Theorem phase_toggling (opts : Defaults T) (innerWidth innerHeight : T)
    (random : nat -> T) (frames : list (Frame T * T)) :
  exists c0 c,
    boot opts innerWidth innerHeight random new_Canvas = Ok c0
    /\ _forcePhase c0 = Attraction
    /\ run opts frames c0 = Ok c
    /\ _forcePhase c = phase_after (List.length frames)
    /\ phase_after 479 = Attraction
    /\ phase_after 480 = Repulsion
    /\ phase_after 959 = Repulsion
    /\ phase_after 960 = Attraction.
Proof.
  destruct (boot_booted opts innerWidth innerHeight random new_Canvas)
    as (c0 & Hboot & Hb & _ & Hp & Hc).
  destruct (run_phase frames (n := 0) Hb Hc Hp) as (c & Hr & _ & Hp').
  exists c0, c. repeat split; auto.
Qed.

(** *** The elapsed-phase accumulator *)

Lemma run_elapsed (opts : Defaults T) (frames : list (Frame T * T)) :
  forall this : Canvas T,
  booted opts this ->
  exists this',
    run opts frames this = Ok this'
    /\ tick_value (_tick this') = elapsed frames (tick_value (_tick this)).
Proof.
  induction frames as [|[env dt] frames IH]; intros this Hb.
  - exists this. split; reflexivity.
  - destruct (update_booted env dt Hb)
      as (vs & this1 & _ & Hu & _ & Ht & _ & _ & Hb1).
    destruct (IH this1 Hb1) as (this' & Hr & Ht').
    exists this'. cbn [run]. rewrite Hu. split; [exact Hr|].
    rewrite Ht', Ht. reflexivity.
Qed.

(** C9, as amended.  A call of [_update] on a booted canvas adds
    [clockDelta * 0.1 * deltaTime] to [_tick], where [clockDelta] is the
    reading of [this._clock.getDelta()] and [null] counts as [0]; after a run
    of frames [_tick] is the sum of these terms, added in the order of the
    calls. *)
Theorem elapsed_clock (opts : Defaults T) (env : Frame T) (dt : T)
    (frames : list (Frame T * T)) (this : Canvas T) :
  booted opts this ->
  (exists this',
     _update opts env this dt = Ok this'
     /\ _tick this'
        = Some (tick_value (_tick this) + clockDelta env * lit 1 10 * dt))
  /\ (exists this',
        run opts frames this = Ok this'
        /\ tick_value (_tick this')
           = elapsed frames (tick_value (_tick this))).
Proof.
  intros Hb. split.
  - destruct (update_booted env dt Hb) as (vs & this' & _ & Hu & _ & Ht & _).
    exists this'. auto.
  - apply run_elapsed, Hb.
Qed.

End Generic.

(** * Comparison on binary64 *)

Module F64.

Lemma SFcompare_antisym (a b : spec_float) :
  SFcompare b a = option_map CompOpp (SFcompare a b).
Proof.
  assert (forall m n,
            Pos.compare_cont Eq n m = CompOpp (Pos.compare_cont Eq m n))
    as Hpos by (intros; now rewrite Pos.compare_cont_antisym).
  destruct a as [sa|sa| |sa ma ea], b as [sb|sb| |sb mb eb]; cbn;
    try destruct sa; try destruct sb; cbn; try reflexivity;
    rewrite (Z.compare_antisym ea eb), (Hpos ma mb);
    destruct (ea ?= eb)%Z; cbn; try reflexivity;
    now rewrite CompOpp_involutive.
Qed.

Lemma SFcompare_refl (a : spec_float) :
  a <> S754_nan -> SFcompare a a = Some Eq.
Proof.
  destruct a as [sa|sa| |sa ma ea]; cbn; intros Ha;
    try destruct sa; try reflexivity; try congruence;
    rewrite Z.compare_refl, Pos.compare_cont_refl; reflexivity.
Qed.

Lemma is_nan_spec (a : float) :
  PrimFloat.is_nan a = false <-> Prim2SF a <> S754_nan.
Proof.
  unfold PrimFloat.is_nan. rewrite FloatAxioms.eqb_spec. unfold SFeqb.
  split.
  - intros H E. rewrite E in H. discriminate.
  - intros H. now rewrite (SFcompare_refl H).
Qed.

Lemma ltb_irrefl (a : float) : PrimFloat.ltb a a = false.
Proof.
  rewrite FloatAxioms.ltb_spec. unfold SFltb.
  destruct (Prim2SF a) as [s|s| |s m e] eqn:E.
  - reflexivity.
  - destruct s; reflexivity.
  - reflexivity.
  - rewrite SFcompare_refl by discriminate. reflexivity.
Qed.

Lemma compare_number (a b : float) :
  PrimFloat.is_nan a = false -> PrimFloat.is_nan b = false ->
  exists c, SFcompare (Prim2SF a) (Prim2SF b) = Some c.
Proof.
  rewrite !is_nan_spec.
  destruct (Prim2SF a) as [sa|sa| |sa ma ea], (Prim2SF b) as [sb|sb| |sb mb eb];
    cbn; intros Ha Hb; try congruence; eauto.
Qed.

Lemma not_ltb_leb (a b : float) :
  PrimFloat.is_nan a = false -> PrimFloat.is_nan b = false ->
  PrimFloat.ltb a b = false -> PrimFloat.leb b a = true.
Proof.
  intros Ha Hb. rewrite FloatAxioms.ltb_spec, FloatAxioms.leb_spec.
  unfold SFltb, SFleb.
  rewrite (SFcompare_antisym (Prim2SF a) (Prim2SF b)).
  destruct (compare_number a b Ha Hb) as [c ->].
  destruct c; cbn; congruence.
Qed.

Lemma leb_refl (a : float) :
  PrimFloat.is_nan a = false -> PrimFloat.leb a a = true.
Proof.
  rewrite is_nan_spec, FloatAxioms.leb_spec. unfold SFleb. intros H.
  now rewrite (SFcompare_refl H).
Qed.

Lemma leb_number (a b : float) :
  PrimFloat.leb a b = true ->
  PrimFloat.is_nan a = false /\ PrimFloat.is_nan b = false.
Proof.
  rewrite FloatAxioms.leb_spec, !is_nan_spec. unfold SFleb.
  destruct (Prim2SF a) as [sa|sa| |sa ma ea], (Prim2SF b) as [sb|sb| |sb mb eb];
    cbn; intros H; split; congruence.
Qed.

Lemma ltb_number (a b : float) :
  PrimFloat.ltb a b = true ->
  PrimFloat.is_nan a = false /\ PrimFloat.is_nan b = false.
Proof.
  rewrite FloatAxioms.ltb_spec, !is_nan_spec. unfold SFltb.
  destruct (Prim2SF a) as [sa|sa| |sa ma ea], (Prim2SF b) as [sb|sb| |sb mb eb];
    cbn; intros H; split; congruence.
Qed.

Lemma is_nan_opp (a : float) :
  PrimFloat.is_nan (PrimFloat.opp a) = PrimFloat.is_nan a.
Proof.
  destruct (PrimFloat.is_nan a) eqn:E.
  - destruct (PrimFloat.is_nan (- a)) eqn:E'; [reflexivity|].
    apply is_nan_spec in E'. rewrite FloatAxioms.opp_spec in E'.
    assert (Prim2SF a <> S754_nan) as H.
    { intros H. now rewrite H in E'. }
    apply is_nan_spec in H. congruence.
  - apply is_nan_spec. rewrite FloatAxioms.opp_spec. apply is_nan_spec in E.
    destruct (Prim2SF a); cbn; congruence.
Qed.

Lemma Prim2SF_zero : Prim2SF PrimFloat.zero = S754_zero false.
Proof. reflexivity. Qed.

(** A bound that is not negative lies above its own negation. *)
Lemma opp_leb_self (w : float) :
  PrimFloat.leb PrimFloat.zero w = true ->
  PrimFloat.leb (PrimFloat.opp w) w = true.
Proof.
  rewrite !FloatAxioms.leb_spec, FloatAxioms.opp_spec, Prim2SF_zero.
  unfold SFleb.
  destruct (Prim2SF w) as [s|s| |s m e]; cbn; try destruct s; cbn;
    try congruence.
Qed.

(** Nothing lies both above a non-negative bound and below its negation. *)
Lemma ltb_opp_exclusive (w a : float) :
  PrimFloat.leb PrimFloat.zero w = true ->
  PrimFloat.ltb a (PrimFloat.opp w) = true ->
  PrimFloat.ltb w a = false.
Proof.
  rewrite FloatAxioms.leb_spec, !FloatAxioms.ltb_spec, FloatAxioms.opp_spec,
    Prim2SF_zero.
  unfold SFleb, SFltb.
  destruct (Prim2SF w) as [s|s| |s m e], (Prim2SF a) as [sa|sa| |sa ma ea];
    cbn; try destruct s; try destruct sa; cbn; try congruence.
Qed.

(** A number that is neither above nor below zero is a zero. *)
Lemma zero_trichotomy (a : float) :
  PrimFloat.is_nan a = false ->
  PrimFloat.ltb PrimFloat.zero a = false ->
  PrimFloat.ltb a PrimFloat.neg_zero = false ->
  a = PrimFloat.zero \/ a = PrimFloat.neg_zero.
Proof.
  rewrite is_nan_spec, !FloatAxioms.ltb_spec. unfold SFltb.
  change (Prim2SF PrimFloat.zero) with (S754_zero false).
  change (Prim2SF PrimFloat.neg_zero) with (S754_zero true).
  intros Hn H1 H2.
  destruct (Prim2SF a) as [s|s| |s m e] eqn:E; cbn in *;
    try destruct s; try congruence.
  - right. apply Prim2SF_inj. now rewrite E.
  - left. apply Prim2SF_inj. now rewrite E.
Qed.

Lemma ltb_neg_zero (a : float) :
  PrimFloat.ltb a PrimFloat.neg_zero = PrimFloat.ltb a PrimFloat.zero.
Proof.
  rewrite !FloatAxioms.ltb_spec. unfold SFltb.
  change (Prim2SF PrimFloat.zero) with (S754_zero false).
  change (Prim2SF PrimFloat.neg_zero) with (S754_zero true).
  destruct (Prim2SF a) as [s|s| |s m e]; reflexivity.
Qed.

Lemma is_number_spec (a : float) :
  is_number a = true <-> PrimFloat.is_nan a = false.
Proof.
  unfold is_number. destruct (PrimFloat.is_nan a); cbn; intuition congruence.
Qed.

(** The second test of an axis never undoes the first. *)
Lemma wrap1_eq (b a : float) :
  wrap1 b a
  = if PrimFloat.ltb b a then PrimFloat.opp b
    else if PrimFloat.ltb a (PrimFloat.opp b) then b else a.
Proof.
  unfold wrap1. cbn.
  destruct (PrimFloat.ltb b a); [|reflexivity].
  now rewrite ltb_irrefl.
Qed.

Lemma wrap1_teleports (b a : float) : teleports b a (wrap1 b a).
Proof.
  rewrite wrap1_eq. repeat split.
  - now intros ->.
  - intros Hb Ha. rewrite (ltb_opp_exclusive Hb Ha). now rewrite Ha.
  - now intros -> ->.
Qed.

Lemma wrap1_within (b a : float) :
  PrimFloat.leb PrimFloat.zero b = true ->
  is_number (wrap1 b a) = true ->
  within (PrimFloat.opp b) (wrap1 b a) b = true.
Proof.
  intros Hb. rewrite wrap1_eq, is_number_spec. unfold within.
  destruct (leb_number Hb) as [_ Nb].
  assert (PrimFloat.is_nan (PrimFloat.opp b) = false) as Nb'
    by now rewrite is_nan_opp.
  destruct (PrimFloat.ltb b a) eqn:E1.
  - intros _. now rewrite (leb_refl _ Nb'), (opp_leb_self Hb).
  - destruct (PrimFloat.ltb a (PrimFloat.opp b)) eqn:E2.
    + intros _. now rewrite (opp_leb_self Hb), (leb_refl _ Nb).
    + intros Na.
      now rewrite (not_ltb_leb Na Nb' E2), (not_ltb_leb Nb Na E1).
Qed.

Lemma wrap1_zero (a : float) :
  is_number (wrap1 PrimFloat.zero a) = true ->
  wrap1 PrimFloat.zero a = PrimFloat.zero
  \/ wrap1 PrimFloat.zero a = PrimFloat.neg_zero.
Proof.
  rewrite wrap1_eq, is_number_spec.
  change (PrimFloat.opp PrimFloat.zero) with PrimFloat.neg_zero.
  destruct (PrimFloat.ltb PrimFloat.zero a) eqn:E1; [now right|].
  destruct (PrimFloat.ltb a PrimFloat.neg_zero) eqn:E2; [now left|].
  intros Na. now apply zero_trichotomy.
Qed.

(** A comparison with NaN is false, so the boundary block keeps a NaN. *)
Lemma wrap1_nan (b a : float) :
  PrimFloat.is_nan a = true -> wrap1 b a = a.
Proof.
  intros Ha. rewrite wrap1_eq.
  destruct (PrimFloat.ltb b a) eqn:E1.
  - destruct (ltb_number E1) as [_ H]. congruence.
  - destruct (PrimFloat.ltb a (PrimFloat.opp b)) eqn:E2; [|reflexivity].
    destruct (ltb_number E2) as [H _]. congruence.
Qed.

(** With a bound that is not negative, the boundary block makes no NaN and
    removes none. *)
Lemma wrap1_number (b a : float) :
  PrimFloat.leb PrimFloat.zero b = true ->
  is_number (wrap1 b a) = is_number a.
Proof.
  intros Hb. destruct (leb_number Hb) as [_ Nb].
  destruct (PrimFloat.is_nan a) eqn:Ha.
  - now rewrite (@wrap1_nan b a Ha).
  - rewrite wrap1_eq. unfold is_number. rewrite Ha.
    destruct (PrimFloat.ltb b a); [now rewrite is_nan_opp, Nb|].
    destruct (PrimFloat.ltb a (PrimFloat.opp b)); [now rewrite Nb|].
    now rewrite Ha.
Qed.

Lemma within_number (lo a hi : float) :
  within lo a hi = true -> PrimFloat.is_nan a = false.
Proof.
  unfold within. rewrite andb_true_iff. intros [H _].
  now destruct (leb_number H).
Qed.

Lemma eqb_number (a b : float) :
  PrimFloat.eqb a b = true ->
  PrimFloat.is_nan a = false /\ PrimFloat.is_nan b = false.
Proof.
  rewrite FloatAxioms.eqb_spec, !is_nan_spec. unfold SFeqb.
  destruct (Prim2SF a) as [sa|sa| |sa ma ea], (Prim2SF b) as [sb|sb| |sb mb eb];
    cbn; intros H; split; congruence.
Qed.

End F64.

(** * Properties on binary64 *)

Section Binary64.

Import F64.
Local Open Scope float_scope.

(** The decimal literals of the source are the doubles nearest to them. *)
Lemma literals_binary64 :
  (lit 41 100 : float) = 0x1.a3d70a3d70a3dp-2
  /\ (lit 2 100 : float) = 0x1.47ae147ae147bp-6
  /\ (lit 1 100 : float) = 0x1.47ae147ae147bp-7
  /\ (lit 1 10 : float) = 0x1.999999999999ap-4
  /\ (lit 1 2 : float) = 0.5
  /\ (lit 3 2 : float) = 1.5
  /\ (lit 0 1 : float) = 0
  /\ (- lit 0 1)%js = neg_zero.
Proof. repeat split. Qed.

Lemma sample_boot :
  boot defaults 500 400 sample_random new_Canvas = Ok sample_canvas.
Proof. reflexivity. Qed.

Lemma sample_booted : booted defaults sample_canvas.
Proof.
  eexists. split; [reflexivity|]. apply boot_vertices_length.
Defined.

Lemma vertexUpdate_position (opts : Defaults float) (ww wh : float)
    (phase : ForcePhase) (v : Vertex float) (pf : Vector3 float) (dt : float) :
  position (_vertexUpdate opts ww wh phase v pf dt)
  = Vec3 (wrap1 ww (x (position (integrated phase v pf dt))))
         (wrap1 wh (y (position (integrated phase v pf dt))))
         (wrap1 (depth opts) (z (position (integrated phase v pf dt)))).
Proof. apply wrapAround_position. Qed.

Lemma vertexUpdate_contained (opts : Defaults float) (ww wh : float)
    (phase : ForcePhase) (v : Vertex float) (pf : Vector3 float) (dt : float) :
  (0 <=? ww) = true -> (0 <=? wh) = true -> (0 <=? depth opts) = true ->
  numeric (position (_vertexUpdate opts ww wh phase v pf dt)) = true ->
  contained opts ww wh (_vertexUpdate opts ww wh phase v pf dt) = true.
Proof.
  intros Hw Hh Hd. unfold contained, numeric.
  rewrite vertexUpdate_position. cbn [x y z].
  rewrite !andb_true_iff. intros [[Nx Ny] Nz].
  repeat split; apply wrap1_within; assumption.
Qed.

(** *** Boundary containment *)

Context {trig : Trig float}.

(** C1, as amended.  With bounds that are not negative, every call of
    [_update] on a booted canvas completes, and afterwards every coordinate
    of every particle that is a number is within its bound:
    [-ww <= x <= ww], [-wh <= y <= wh] and [-depth <= z <= depth], for the
    window size [ww], [wh] of that frame.  The boundary block makes no NaN
    and removes none: a coordinate is a number after it exactly when
    integration left a number, and a NaN that integration left is kept. *)
Theorem boundary_containment (opts : Defaults float) (env : Frame float)
    (this : Canvas float) (dt : float) :
  booted opts this ->
  (0 <=? windowWidth env) = true ->
  (0 <=? windowHeight env) = true ->
  (0 <=? depth opts) = true ->
  (exists this' vs',
     _update opts env this dt = Ok this'
     /\ vertices this' = Some vs'
     /\ List.length vs' = Z.to_nat (len opts)
     /\ Forall (fun v =>
                  number_within (windowWidth env) (x (position v))
                  /\ number_within (windowHeight env) (y (position v))
                  /\ number_within (depth opts) (z (position v))) vs')
  /\ (forall (phase : ForcePhase) (v : Vertex float) (pf : Vector3 float),
        let pre := position (integrated phase v pf dt) in
        let post :=
          position
            (_vertexUpdate opts (windowWidth env) (windowHeight env) phase v
               pf dt) in
        is_number (x post) = is_number (x pre)
        /\ is_number (y post) = is_number (y pre)
        /\ is_number (z post) = is_number (z pre)
        /\ (is_number (x pre) = false -> x post = x pre)
        /\ (is_number (y pre) = false -> y post = y pre)
        /\ (is_number (z pre) = false -> z post = z pre)).
Proof.
  intros Hb Hw Hh Hd. split.
  - destruct (update_booted env dt Hb)
      as (vs & this' & _ & Hu & Hvs & _ & _ & _ & (vs' & Hvs' & Hlen)).
    exists this', vs'. repeat split; auto.
    rewrite Hvs in Hvs'. injection Hvs' as <-.
    apply Forall_map, Forall_forall. intros v _.
    unfold number_within. rewrite vertexUpdate_position. cbn [x y z].
    repeat split; apply wrap1_within; assumption.
  - intros phase v pf. cbv zeta.
    rewrite vertexUpdate_position. cbn [x y z].
    assert (forall a, is_number a = false -> PrimFloat.is_nan a = true) as N.
    { intros a. unfold is_number. now destruct (PrimFloat.is_nan a). }
    split; [now apply wrap1_number|]. split; [now apply wrap1_number|].
    split; [now apply wrap1_number|].
    repeat split; intros H; apply wrap1_nan, N, H.
Qed.

(** *** Teleport, not reflection *)

(** C2.  The boundary block of [_vertexUpdate] keeps the velocity and the
    force that integration left, and on each axis it moves a coordinate
    above the bound to the negative bound, a coordinate below the negative
    bound to the bound (for a bound that is not negative), and keeps any
    other coordinate; with the bound 500, the coordinate 501 becomes -500. *)
Theorem wrap_teleports (opts : Defaults float) (ww wh : float)
    (phase : ForcePhase) (v : Vertex float) (pf : Vector3 float) (dt : float) :
  let pre := integrated phase v pf dt in
  let post := _vertexUpdate opts ww wh phase v pf dt in
  velocity post = velocity pre
  /\ force post = force pre
  /\ teleports ww (x (position pre)) (x (position post))
  /\ teleports wh (y (position pre)) (y (position post))
  /\ teleports (depth opts) (z (position pre)) (z (position post))
  /\ (ww = 500 -> x (position pre) = 501 -> x (position post) = -500).
Proof.
  cbv zeta. rewrite vertexUpdate_position. cbn [x y z].
  destruct (wrapAround_rest opts ww wh (integrated phase v pf dt))
    as (Wv & Wf & _ & _).
  repeat split; try apply wrap1_teleports; auto.
  intros -> ->. reflexivity.
Qed.

(** *** The default depth *)

(** C10, as amended.  With the default options ([depth = 0]), after every
    call of [_update] on a booted canvas the [z] coordinate of every
    particle, when it is a number, is a zero; [_vertexUpdate] turns a
    positive [z] left by integration into [-0] and a negative one into [+0],
    and leaves a [z] that is a number at one of the two zeros.  The [z] it
    leaves is a number exactly when integration left a number, and a NaN
    that integration left is kept. *)
Theorem default_depth_plane (env : Frame float) (this : Canvas float)
    (dt : float) :
  booted defaults this ->
  (exists this' vs',
     _update defaults env this dt = Ok this'
     /\ vertices this' = Some vs'
     /\ Forall (fun v => is_number (z (position v)) = true ->
                         z (position v) = 0 \/ z (position v) = neg_zero) vs')
  /\ (forall (ww wh : float) (phase : ForcePhase) (v : Vertex float)
             (pf : Vector3 float),
        let pre := z (position (integrated phase v pf dt)) in
        let post := z (position (_vertexUpdate defaults ww wh phase v pf dt)) in
        ((0 <? pre) = true -> post = neg_zero)
        /\ ((pre <? 0) = true -> post = 0)
        /\ (is_number post = true -> post = 0 \/ post = neg_zero)
        /\ is_number post = is_number pre
        /\ (is_number pre = false -> post = pre)).
Proof.
  intros Hb. split.
  - destruct (update_booted env dt Hb)
      as (vs & this' & _ & Hu & Hvs & _).
    exists this'. eexists. repeat split; eauto.
    apply Forall_map, Forall_forall. intros v _.
    rewrite vertexUpdate_position. cbn [z].
    apply wrap1_zero.
  - intros ww wh phase v pf. cbv zeta.
    rewrite vertexUpdate_position. cbn [z].
    change (depth defaults) with PrimFloat.zero.
    destruct (wrap1_teleports PrimFloat.zero
                (z (position (integrated phase v pf dt)))) as (Ha & Hl & _).
    split; [exact Ha|]. split; [|split; [apply wrap1_zero|]].
    + intros H. apply Hl; [reflexivity|].
      change (PrimFloat.opp PrimFloat.zero) with PrimFloat.neg_zero.
      now rewrite ltb_neg_zero.
    + split; [now apply wrap1_number|].
      intros H. apply wrap1_nan. unfold is_number in H.
      now destruct
            (PrimFloat.is_nan (z (position (integrated phase v pf dt)))).
Qed.

(** *** A radius of zero *)

(** C7, as amended.  Called with the radius [0], a force helper raises
    nothing and skips nothing: the test [radius > 0] fails, so the in-radius
    branch runs wherever the particle is; the call returns the particle with
    the force accumulator that this branch assigns and the same position,
    velocity, friction and mass.  A frame on a booted canvas always completes
    and computes the new state of each particle from the state of that
    particle. *)
Theorem zero_radius_applies (v : Vertex float) (cx cy cz scale : float) :
  let d := offset v cx cy cz in
  let n := normalize d in
  let p := pct d 0 in
  let fa := (y (force v) - y n * scale * p)%js in
  let fr := (y (force v) + y n * scale * p)%js in
  closeEnough d 0 = true
  /\ attraction v cx cy cz 0 scale
     = set_force v (Vec3 (x (force v) - x n * scale * p)%js fa
                      (fa - y n * scale * p)%js)
  /\ repulsion v cx cy cz 0 scale
     = set_force v (Vec3 (x (force v) + x n * scale * p)%js fr
                      (fr + y n * scale * p)%js)
  /\ same_body (attraction v cx cy cz 0 scale) v
  /\ same_body (repulsion v cx cy cz 0 scale) v
  /\ forall (opts : Defaults float) (env : Frame float) (this : Canvas float)
            (dt : float),
       booted opts this ->
       exists vs this',
         vertices this = Some vs
         /\ _update opts env this dt = Ok this'
         /\ vertices this'
            = Some (map (fun particle =>
                           _vertexUpdate opts (windowWidth env)
                             (windowHeight env) (_forcePhase this) particle
                             (_posOfForce this') dt) vs).
Proof.
  cbv zeta. split; [reflexivity|]. split; [reflexivity|].
  split; [reflexivity|].
  split; [apply attraction_rest|]. split; [apply repulsion_rest|].
  intros opts env this dt Hb.
  destruct (update_booted env dt Hb) as (vs & this' & H1 & H2 & H3 & _).
  exists vs, this'. auto.
Qed.

End Binary64.

(** ** Runs on sample data *)

Section Samples.

Local Open Scope float_scope.

(** C1 at the sample canvas. *)
Lemma boundary_containment_witness :
  (booted defaults sample_canvas
   /\ (0 <=? 500) = true /\ (0 <=? 400) = true
   /\ (0 <=? depth (@defaults float _)) = true)
  /\ exists this' vs',
       _update (trig := flatTrig) defaults sample_frame sample_canvas 1
       = Ok this'
       /\ vertices this' = Some vs'
       /\ List.length vs' = Z.to_nat (len (@defaults float _))
       /\ Forall (fun v =>
                    number_within 500 (x (position v))
                    /\ number_within 400 (y (position v))
                    /\ number_within 0 (z (position v))) vs'.
Proof.
  assert ((0 <=? 500) = true) as Hw by reflexivity.
  assert ((0 <=? 400) = true) as Hh by reflexivity.
  assert ((0 <=? depth (@defaults float _)) = true) as Hd by reflexivity.
  split.
  - split; [exact sample_booted|]. auto.
  - exact (proj1 (@boundary_containment flatTrig defaults sample_frame
                    sample_canvas 1 sample_booted Hw Hh Hd)).
Defined.

(** C2 on a particle that integration leaves at [x = 501], far from the
    centre of force. *)
Lemma wrap_teleports_witness :
  let v := resting 501 0 0 in
  let pf := Vec3 5000 0 0 in
  x (position (integrated Attraction v pf 1)) = 501
  /\ x (position (_vertexUpdate defaults 500 400 Attraction v pf 1)) = -500
  /\ velocity (_vertexUpdate defaults 500 400 Attraction v pf 1)
     = velocity (integrated Attraction v pf 1).
Proof.
  cbv zeta.
  assert (x (position (integrated Attraction (resting 501 0 0)
                         (Vec3 5000 0 0) 1)) = 501) as H
    by (vm_compute; reflexivity).
  destruct (wrap_teleports defaults 500 400 Attraction (resting 501 0 0)
              (Vec3 5000 0 0) 1) as (Hv & _ & _ & _ & _ & Hs).
  split; [exact H|]. split; [exact (Hs eq_refl H) | exact Hv].
Defined.

(** C10 at the sample canvas. *)
Lemma default_depth_plane_witness :
  booted defaults sample_canvas
  /\ exists this' vs',
       _update (trig := flatTrig) defaults sample_frame sample_canvas 1
       = Ok this'
       /\ vertices this' = Some vs'
       /\ Forall (fun v => is_number (z (position v)) = true ->
                           z (position v) = 0 \/ z (position v) = neg_zero)
            vs'.
Proof.
  split; [exact sample_booted|].
  exact (proj1 (@default_depth_plane flatTrig sample_frame sample_canvas 1
                  sample_booted)).
Defined.

(** C7 at the sample canvas. *)
Lemma zero_radius_applies_witness :
  booted defaults sample_canvas
  /\ exists vs this',
       vertices sample_canvas = Some vs
       /\ _update (trig := flatTrig) defaults sample_frame sample_canvas 1
          = Ok this'
       /\ vertices this'
          = Some (map (fun particle =>
                         _vertexUpdate defaults 500 400 Attraction particle
                           (_posOfForce this') 1) vs).
Proof.
  split; [exact sample_booted|].
  apply (@zero_radius_applies flatTrig (resting 5 0 0) 0 0 0 1).
  exact sample_booted.
Defined.

(** The claim C7 fails for a particle at distance 5 of the centre: with the
    radius [0] the helpers return, [pct] is [-Infinity], and the force
    accumulator is changed into infinities and NaN. *)
Lemma zero_radius_counterexample :
  let v := resting 5 0 0 in
  pct (offset v 0 0 0) 0 = neg_infinity
  /\ x (force (attraction v 0 0 0 0 1)) = infinity
  /\ is_nan (y (force (attraction v 0 0 0 0 1))) = true
  /\ attraction v 0 0 0 0 1 <> v
  /\ x (force (repulsion v 0 0 0 0 1)) = neg_infinity
  /\ repulsion v 0 0 0 0 1 <> v.
Proof.
  cbv zeta. split; [reflexivity|]. split; [reflexivity|].
  split; [reflexivity|]. split; [|split; [reflexivity|]].
  - intros H.
    apply (f_equal (fun u => PrimFloat.eqb (x (force u)) 0)) in H.
    vm_compute in H. discriminate.
  - intros H.
    apply (f_equal (fun u => PrimFloat.eqb (x (force u)) 0)) in H.
    vm_compute in H. discriminate.
Qed.

(** C5 on a particle at [(3, 4, 0)], inside the radius 10. *)
Lemma z_force_from_y_witness :
  let v := resting 3 4 0 in
  closeEnough (offset v 0 0 0) 10 = true
  /\ z (force (attraction v 0 0 0 10 1))
     = (y (force (attraction v 0 0 0 10 1))
        - y (normalize (offset v 0 0 0)) * 1 * pct (offset v 0 0 0) 10)%js
  /\ z (force (repulsion v 0 0 0 10 1))
     = (y (force (repulsion v 0 0 0 10 1))
        + y (normalize (offset v 0 0 0)) * 1 * pct (offset v 0 0 0) 10)%js.
Proof.
  cbv zeta.
  assert (closeEnough (offset (resting 3 4 0) 0 0 0) 10 = true) as H
    by (vm_compute; reflexivity).
  split; [exact H|].
  destruct (@z_force_from_y float _ (resting 3 4 0) 0 0 0 10 1 H)
    as (_ & Ha & _ & Hr).
  split; [exact Ha | exact Hr].
Defined.

(** The claim C5 fails for [repulsion]: at [(3, 4, 0)] it writes
    [force.z = 0.8], where [force.y - diff.y * scale * pct] is [0]. *)
Lemma z_force_counterexample :
  let v := resting 3 4 0 in
  let n := normalize (offset v 0 0 0) in
  let p := pct (offset v 0 0 0) 10 in
  closeEnough (offset v 0 0 0) 10 = true
  /\ z (force (repulsion v 0 0 0 10 1)) = 0x1.999999999999ap-1
  /\ (y (force (repulsion v 0 0 0 10 1)) - y n * 1 * p)%js = 0
  /\ z (force (repulsion v 0 0 0 10 1))
     <> (y (force (repulsion v 0 0 0 10 1)) - y n * 1 * p)%js.
Proof.
  cbv zeta. split; [reflexivity|]. split; [reflexivity|].
  split; [reflexivity|].
  intros H. apply (f_equal (fun a => PrimFloat.eqb a 0)) in H.
  vm_compute in H. discriminate.
Qed.

(** The claim C6 fails: [boot] returns a canvas in a window of size 0 x 0,
    and for the particle counts 0 and -5, where it allocates no particle. *)
Lemma boot_counterexample :
  (exists c, boot defaults 0 0 sample_random new_Canvas = Ok c)
  /\ boot (MkDefaults 0 0 1 1.5) 500 400 sample_random new_Canvas
     = Ok (MkCanvas (Some []) origin None Attraction 1)
  /\ boot (MkDefaults (-5) 0 1 1.5) 500 400 sample_random new_Canvas
     = Ok (MkCanvas (Some []) origin None Attraction 1).
Proof.
  split; [|split; reflexivity]. eexists. reflexivity.
Qed.

(** C9 at the sample canvas, for one frame and for two. *)
Lemma elapsed_clock_witness :
  booted defaults sample_canvas
  /\ (exists this',
        _update (trig := flatTrig) defaults sample_frame sample_canvas 1
        = Ok this'
        /\ _tick this' = Some (lit 0 1 + lit 1 2 * lit 1 10 * 1)%js)
  /\ (exists this',
        run (trig := flatTrig) defaults
          [(sample_frame, 1); (sample_frame, 2)] sample_canvas = Ok this'
        /\ tick_value (_tick this')
           = (lit 0 1 + lit 1 2 * lit 1 10 * 1 + lit 1 2 * lit 1 10 * 2)%js).
Proof.
  split; [exact sample_booted|].
  exact (@elapsed_clock float _ flatTrig defaults sample_frame 1
           [(sample_frame, 1); (sample_frame, 2)] sample_canvas
           sample_booted).
Defined.

(** The claim C9 fails: a frame with [deltaTime = 1] that comes half a second
    after the last one adds [0.05] to [_tick], not [0.1]. *)
Lemma clock_counterexample :
  exists this',
    run (trig := flatTrig) defaults [(sample_frame, 1)] sample_canvas
    = Ok this'
    /\ tick_value (_tick this') = 0x1.999999999999ap-5
    /\ spec_elapsed [(sample_frame, 1)] (tick_value (_tick sample_canvas))
       = 0x1.999999999999ap-4
    /\ tick_value (_tick this')
       <> spec_elapsed [(sample_frame, 1)] (tick_value (_tick sample_canvas)).
Proof.
  destruct (run_elapsed (trig := flatTrig) [(sample_frame, 1)] sample_booted)
    as (this' & Hr & Ht).
  exists this'. split; [exact Hr|]. rewrite Ht.
  split; [reflexivity|]. split; [reflexivity|].
  intros H. apply (f_equal (fun a => PrimFloat.ltb a (lit 3 40))) in H.
  vm_compute in H. discriminate.
Qed.

(** The magnitudes of the change that [attraction] makes at the centre, at
    [(5, 0, 0)], at [(0, 6, 0)] and at [(0, 0, 5)], for the radius 10 and the
    scale 1. *)
Lemma falloff_binary64 :
  let change v := vsub (force (attraction v 0 0 0 10 1)) (force v) in
  length (change (resting 0 0 0)) = 0
  /\ length (change (resting 5 0 0)) = 0.5
  /\ (0.5 <? length (change (resting 0 6 0))) = true
  /\ length (change (resting 0 0 5)) = 0.
Proof. cbv beta zeta. repeat split. Qed.

End Samples.

(** ** Overflow of the integration *)

(** A frame treats each particle by itself, and the clock, the phase and the
    frame count do not depend on the particles: the first particle of a
    canvas goes through a run as it does alone on a canvas of its own. *)
Section FirstParticle.

Context {T : Type} {num : Number T} {trig : Trig T}.

Lemma update_head (opts opts1 : Defaults T) (env : Frame T) (dt : T)
    (c c1 : Canvas T) (v : Vertex T) (vs : list (Vertex T)) :
  depth opts1 = depth opts ->
  speed_horizontal opts1 = speed_horizontal opts ->
  speed_vertical opts1 = speed_vertical opts ->
  len opts1 = 1%Z ->
  vertices c = Some (v :: vs) ->
  List.length (v :: vs) = Z.to_nat (len opts) ->
  vertices c1 = Some [v] ->
  _tick c1 = _tick c ->
  _forcePhase c1 = _forcePhase c ->
  _frameCount c1 = _frameCount c ->
  exists c' c1' v' vs',
    _update opts env c dt = Ok c'
    /\ _update opts1 env c1 dt = Ok c1'
    /\ vertices c' = Some (v' :: vs')
    /\ List.length (v' :: vs') = Z.to_nat (len opts)
    /\ vertices c1' = Some [v']
    /\ _tick c1' = _tick c'
    /\ _forcePhase c1' = _forcePhase c'
    /\ _frameCount c1' = _frameCount c'.
Proof.
  intros Hd Hh Hv Hl Hc Hlen Hc1 Ht Hp Hf.
  unfold _update. rewrite Hc, Hc1, Hl, Ht, Hp, Hf, Hh, Hv, <- Hlen.
  rewrite update_loop_map.
  change (Z.to_nat 1) with (List.length [v]). rewrite update_loop_map.
  cbn [map].
  do 4 eexists. split; [reflexivity|]. split; [reflexivity|].
  cbn [vertices _tick _forcePhase _frameCount].
  split; [reflexivity|]. split; [cbn; now rewrite length_map|].
  split; [|repeat split].
  unfold _vertexUpdate, wrapAround. now rewrite Hd.
Qed.

Lemma run_head (opts opts1 : Defaults T) (frames : list (Frame T * T)) :
  depth opts1 = depth opts ->
  speed_horizontal opts1 = speed_horizontal opts ->
  speed_vertical opts1 = speed_vertical opts ->
  len opts1 = 1%Z ->
  forall (c c1 : Canvas T) (v : Vertex T) (vs : list (Vertex T)),
  vertices c = Some (v :: vs) ->
  List.length (v :: vs) = Z.to_nat (len opts) ->
  vertices c1 = Some [v] ->
  _tick c1 = _tick c ->
  _forcePhase c1 = _forcePhase c ->
  _frameCount c1 = _frameCount c ->
  exists c' c1' v' vs',
    run opts frames c = Ok c'
    /\ run opts1 frames c1 = Ok c1'
    /\ vertices c' = Some (v' :: vs')
    /\ vertices c1' = Some [v'].
Proof.
  intros Hd Hh Hv Hl.
  induction frames as [|[env dt] frames IH];
    intros c c1 v vs Hc Hlen Hc1 Ht Hp Hf.
  - exists c, c1, v, vs. cbn. auto.
  - destruct (@update_head opts opts1 env dt c c1 v vs Hd Hh Hv Hl Hc Hlen Hc1
                Ht Hp Hf)
      as (c' & c1' & v' & vs' & Hu & Hu1 & Hc' & Hlen' & Hc1' & Ht' & Hp'
          & Hf').
    destruct (IH c' c1' v' vs' Hc' Hlen' Hc1' Ht' Hp' Hf')
      as (c'' & c1'' & v'' & vs'' & Hr & Hr1 & E & E1).
    exists c'', c1'', v'', vs''. cbn [run]. rewrite Hu, Hu1. auto.
Qed.

End FirstParticle.

Section Overflow.

Import F64.
Local Open Scope float_scope.

(** On the canvas that [boot] builds, 838 frames that come a tenth of a
    second apart ([deltaTime = 6]) overflow the integration: the velocity of
    the first particle grows to infinity and its position, a difference of
    infinities, is NaN in all three coordinates. *)
Lemma overflow_run :
  exists this' v vs,
    run (trig := flatTrig) defaults (repeat (hot_frame, 6) 838) sample_canvas
    = Ok this'
    /\ vertices this' = Some (v :: vs)
    /\ PrimFloat.is_nan (x (position v)) = true
    /\ PrimFloat.is_nan (y (position v)) = true
    /\ PrimFloat.is_nan (z (position v)) = true.
Proof.
  assert (exists vs,
            vertices sample_canvas
            = Some (boot_vertex defaults 500 400 sample_random 0 :: vs)
            /\ List.length
                 (boot_vertex defaults 500 400 sample_random 0 :: vs)
               = Z.to_nat (len (@defaults float _))) as (vs & Hc & Hlen).
  { unfold sample_canvas.
    pose proof (boot_vertices_length (@defaults float _) 500 400 sample_random
                  0 (Z.to_nat (len (@defaults float _)))) as L.
    destruct (Z.to_nat (len (@defaults float _))) as [|n] eqn:E.
    - vm_compute in E. discriminate.
    - cbn [boot_vertices] in *. eexists. split; [reflexivity|]. exact L. }
  destruct (@run_head float _ flatTrig defaults one_particle
              (repeat (hot_frame, 6) 838) eq_refl eq_refl eq_refl eq_refl
              sample_canvas first_canvas _ _ Hc Hlen eq_refl eq_refl eq_refl
              eq_refl)
    as (c' & c1' & v' & vs' & Hr & Hr1 & E & E1).
  exists c', v', vs'. split; [exact Hr|]. split; [exact E|].
  assert (match run (trig := flatTrig) one_particle
                  (repeat (hot_frame, 6) 838) first_canvas with
          | Ok c =>
              match vertices c with
              | Some [u] =>
                  PrimFloat.is_nan (x (position u))
                  && PrimFloat.is_nan (y (position u))
                  && PrimFloat.is_nan (z (position u))
              | _ => false
              end
          | Err _ => false
          end = true) as H by (vm_compute; reflexivity).
  rewrite Hr1, E1 in H.
  apply andb_true_iff in H. destruct H as [H Hz].
  apply andb_true_iff in H. destruct H as [Hx Hy]. auto.
Qed.

(** Against C1 as stated: the canvas that [boot] builds meets every
    condition of the claim, and after 838 frames with [deltaTime = 6] in a
    500 x 400 window its first particle is not within the bounds, its [x]
    being neither at least [-500] nor at most [500]. *)
Lemma containment_counterexample :
  boot defaults 500 400 sample_random new_Canvas = Ok sample_canvas
  /\ booted defaults sample_canvas
  /\ (0 <=? 500) = true /\ (0 <=? 400) = true
  /\ (0 <=? depth (@defaults float _)) = true
  /\ exists this' v vs,
       run (trig := flatTrig) defaults (repeat (hot_frame, 6) 838)
         sample_canvas = Ok this'
       /\ vertices this' = Some (v :: vs)
       /\ contained defaults 500 400 v = false
       /\ (-500 <=? x (position v)) = false
       /\ (x (position v) <=? 500) = false.
Proof.
  split; [reflexivity|]. split; [exact sample_booted|].
  split; [reflexivity|]. split; [reflexivity|]. split; [reflexivity|].
  destruct overflow_run as (this' & v & vs & Hr & Hv & Hx & _ & _).
  exists this', v, vs. split; [exact Hr|]. split; [exact Hv|].
  assert (forall a b, (a <=? b) = false \/ (a <=? b) = true) as D
    by (intros a b; destruct (a <=? b); auto).
  split; [|split].
  - unfold contained.
    assert (within (PrimFloat.opp 500) (x (position v)) 500 = false) as W.
    { destruct (within (PrimFloat.opp 500) (x (position v)) 500) eqn:W;
        [|reflexivity].
      apply within_number in W. congruence. }
    rewrite W. reflexivity.
  - destruct (D (-500) (x (position v))) as [H|H]; [exact H|].
    apply leb_number in H. destruct H as [_ N]. congruence.
  - destruct (D (x (position v)) 500) as [H|H]; [exact H|].
    apply leb_number in H. destruct H as [N _]. congruence.
Qed.

(** Against C10 as stated: with the default options, after the same 838
    frames the [z] of the first particle of the booted canvas is NaN: it is
    neither of the two zeros and does not compare equal to zero. *)
Lemma depth_plane_counterexample :
  boot defaults 500 400 sample_random new_Canvas = Ok sample_canvas
  /\ depth (@defaults float _) = 0
  /\ exists this' v vs,
       run (trig := flatTrig) defaults (repeat (hot_frame, 6) 838)
         sample_canvas = Ok this'
       /\ vertices this' = Some (v :: vs)
       /\ z (position v) <> 0
       /\ z (position v) <> neg_zero
       /\ (z (position v) =? 0) = false.
Proof.
  split; [reflexivity|]. split; [reflexivity|].
  destruct overflow_run as (this' & v & vs & Hr & Hv & _ & _ & Hz).
  exists this', v, vs. split; [exact Hr|]. split; [exact Hv|].
  split; [|split].
  - intros E. rewrite E in Hz. discriminate.
  - intros E. rewrite E in Hz. discriminate.
  - destruct (z (position v) =? 0) eqn:E; [|reflexivity].
    apply eqb_number in E. destruct E as [N _]. congruence.
Qed.

End Overflow.

(** * Properties in exact arithmetic *)

Section ExactArithmetic.

Local Open Scope R_scope.

Lemma Rltb_true (a b : R) : a < b -> Rltb a b = true.
Proof. intros H. unfold Rltb. destruct (Rlt_dec a b); [reflexivity|lra]. Qed.

Lemma Rltb_false (a b : R) : b <= a -> Rltb a b = false.
Proof. intros H. unfold Rltb. destruct (Rlt_dec a b); [lra|reflexivity]. Qed.


Lemma closeEnough_inside (d : Vector3 R) (radius : R) :
  0 < radius -> length d <= radius -> closeEnough d radius = true.
Proof.
  intros Hr Hd. unfold closeEnough. cbn.
  rewrite Rltb_true by lra. now rewrite Rltb_false.
Qed.



(** *** The boundary block over the reals *)

Lemma wrap1_exact (b a : R) : 0 <= b -> - b <= wrap1 b a <= b.
Proof.
  intros Hb. unfold wrap1. cbn. unfold Rltb.
  destruct (Rlt_dec b a);
    match goal with
    | |- context [Rlt_dec ?u ?w] => destruct (Rlt_dec u w)
    end; lra.
Qed.

(** Over the reals, where every coordinate is a number, the containment of
    C1 holds for every particle. *)
Lemma exact_containment (opts : Defaults R) (env : Frame R) (this : Canvas R)
    (dt : R) :
  booted opts this ->
  0 <= windowWidth env -> 0 <= windowHeight env -> 0 <= depth opts ->
  exists this' vs',
    _update opts env this dt = Ok this'
    /\ vertices this' = Some vs'
    /\ Forall (fun v =>
                 - windowWidth env <= x (position v) <= windowWidth env
                 /\ - windowHeight env <= y (position v) <= windowHeight env
                 /\ - depth opts <= z (position v) <= depth opts) vs'.
Proof.
  intros Hb Hw Hh Hd.
  destruct (update_booted env dt Hb) as (vs & this' & _ & Hu & Hvs & _).
  exists this'. eexists. repeat split; eauto.
  apply Forall_map, Forall_forall. intros v _.
  unfold _vertexUpdate. rewrite wrapAround_position. cbn [x y z].
  repeat split; now apply wrap1_exact.
Qed.

(** *** Falloff *)


Lemma length_at_pos (px py pz d : R) :
  0 <= d -> px * px + py * py + pz * pz = d * d ->
  length (offset (at_pos px py pz) 0 0 0) = d.
Proof.
  intros Hd H. unfold length, offset, at_pos. cbn.
  rewrite <- (sqrt_square d Hd). f_equal. lra.
Qed.



Lemma attraction_force_center (v : Vertex R) (cx cy cz radius scale : R) :
  0 < radius ->
  offset v cx cy cz = Vec3 0 0 0 ->
  force (attraction v cx cy cz radius scale)
  = Vec3 (x (force v)) (y (force v)) (y (force v)).
Proof.
  intros Hr E.
  assert (length (offset v cx cy cz) = 0) as L.
  { rewrite E. unfold length. cbn.
    replace (0 * 0 + 0 * 0 + 0 * 0) with 0 by lra. apply sqrt_0. }
  rewrite attraction_eq, closeEnough_inside by (rewrite ?L; lra).
  unfold normalize, pct. rewrite L, E. cbn.
  destruct (Req_dec_T 0 0) as [_|N]; [|lra].
  cbn. f_equal; lra.
Qed.


End ExactArithmetic.

(** * Further properties in every arithmetic *)

Section FurtherGeneric.

Context {T : Type} {num : Number T} {trig : Trig T}.
Local Open Scope js_scope.

Lemma vertexUpdate_body (opts : Defaults T) (ww wh : T) (phase : ForcePhase)
    (v : Vertex T) (pf : Vector3 T) (dt : T) :
  friction (_vertexUpdate opts ww wh phase v pf dt) = friction v
  /\ mass (_vertexUpdate opts ww wh phase v pf dt) = mass v.
Proof.
  unfold _vertexUpdate.
  destruct (wrapAround_rest opts ww wh
              (integrate (applyPhase phase (recombineForce v dt) pf) dt))
    as (_ & _ & Hf & Hm).
  destruct (applyPhase_rest phase (recombineForce v dt) pf)
    as (_ & _ & Hf' & Hm').
  rewrite Hf, Hm. cbn. rewrite Hf', Hm'. split; reflexivity.
Qed.

(** X1.  A run of frames on a booted canvas always completes and never
    resizes the geometry; every particle keeps the friction and the mass it
    had, and [_frameCount] grows by one per frame. *)
Theorem run_keeps_particles (opts : Defaults T)
    (frames : list (Frame T * T)) :
  forall this : Canvas T,
  booted opts this ->
  exists vs this' vs',
    vertices this = Some vs
    /\ run opts frames this = Ok this'
    /\ vertices this' = Some vs'
    /\ List.length vs' = List.length vs
    /\ map (@friction T) vs' = map (@friction T) vs
    /\ map (@mass T) vs' = map (@mass T) vs
    /\ _frameCount this' = (_frameCount this + List.length frames)%nat.
Proof.
  induction frames as [|[env dt] frames IH]; intros this Hb.
  - destruct Hb as (vs & Hvs & Hlen).
    exists vs, this, vs. cbn. rewrite Nat.add_0_r. repeat split; auto.
  - destruct (update_booted env dt Hb)
      as (vs & this1 & Hvs & Hu & Hvs1 & _ & _ & Hc1 & Hb1).
    destruct (IH this1 Hb1)
      as (vs1 & this' & vs' & E1 & Hr & E' & Hl & Hf & Hm & Hc).
    rewrite Hvs1 in E1. injection E1 as <-.
    exists vs, this', vs'. cbn [run]. rewrite Hu.
    repeat split; auto.
    + now rewrite Hl, length_map.
    + rewrite Hf, map_map. apply map_ext. intros v. apply vertexUpdate_body.
    + rewrite Hm, map_map. apply map_ext. intros v. apply vertexUpdate_body.
    + rewrite Hc, Hc1. cbn [List.length]. lia.
Qed.

Lemma update_loop_spec (f : Vertex T -> Vertex T) (n : nat) :
  forall vs : list (Vertex T),
  update_loop f n vs
  = if (n <=? List.length vs)%nat
    then Ok (map f (firstn n vs) ++ skipn n vs)
    else Err TypeError.
Proof.
  induction n as [|n IH]; intros vs; [reflexivity|].
  destruct vs as [|v vs]; [reflexivity|].
  cbn [update_loop List.length firstn skipn map app]. rewrite IH.
  change (S n <=? S (List.length vs))%nat with (n <=? List.length vs)%nat.
  now destruct (n <=? List.length vs)%nat.
Qed.

(** X2.  [_update] raises a TypeError on a canvas that was not booted and
    on a geometry with fewer than [len] vertices; with [len] vertices or
    more it completes, updates the first [len] of them and leaves the others
    as they are.  A frame that fails makes the run fail with the same
    error. *)
Theorem update_needs_vertices (opts : Defaults T) (env : Frame T)
    (this : Canvas T) (dt : T) (rest : list (Frame T * T)) :
  (vertices this = None -> _update opts env this dt = Err TypeError)
  /\ (forall vs, vertices this = Some vs ->
        (List.length vs < Z.to_nat (len opts))%nat ->
        _update opts env this dt = Err TypeError)
  /\ (forall vs, vertices this = Some vs ->
        (Z.to_nat (len opts) <= List.length vs)%nat ->
        exists this',
          _update opts env this dt = Ok this'
          /\ vertices this'
             = Some (map (fun particle =>
                            _vertexUpdate opts (windowWidth env)
                              (windowHeight env) (_forcePhase this) particle
                              (_posOfForce this') dt)
                       (firstn (Z.to_nat (len opts)) vs)
                     ++ skipn (Z.to_nat (len opts)) vs))
  /\ (forall e, _update opts env this dt = Err e ->
        run opts ((env, dt) :: rest) this = Err e).
Proof.
  repeat split.
  - intros H. unfold _update. now rewrite H.
  - intros vs H Hlt. unfold _update. rewrite H, update_loop_spec.
    apply Nat.leb_gt in Hlt. now rewrite Hlt.
  - intros vs H Hle. unfold _update. rewrite H, update_loop_spec.
    apply Nat.leb_le in Hle. rewrite Hle.
    eexists. split; reflexivity.
  - intros e H. cbn [run]. now rewrite H.
Qed.

Lemma update_attractor (opts : Defaults T) (env : Frame T) (this : Canvas T)
    (dt : T) :
  booted opts this ->
  exists this',
    _update opts env this dt = Ok this'
    /\ _tick this'
       = Some (tick_value (_tick this) + clockDelta env * lit 1 10 * dt)
    /\ _posOfForce this'
       = if tick_value (_tick this') <? lit 1 1 then
           Vec3 (Math_cos (tick_value (_tick this') * speed_horizontal opts)
                 * lit 50 1 * dt)
                (Math_sin (tick_value (_tick this') * speed_vertical opts)
                 * lit 50 1 * dt)
                (lit 0 1)
         else
           Vec3 (Math_cos (tick_value (_tick this') * speed_horizontal opts)
                 * windowWidth env * - lit 1 2 * dt)
                (Math_sin (tick_value (_tick this') * speed_vertical opts)
                 * windowHeight env * lit 1 2 * dt)
                (lit 0 1).
Proof.
  intros (vs & Hvs & Hlen).
  unfold _update. rewrite Hvs, <- Hlen, update_loop_map.
  eexists. split; [reflexivity|]. split; reflexivity.
Qed.

End FurtherGeneric.

Section FurtherParticle.

Context {T : Type} {num : Number T}.
Local Open Scope js_scope.

Ltac split_ifs :=
  repeat (cbn;
          match goal with
          | |- context [if ?c then _ else _] =>
              lazymatch c with
              | context [if _ then _ else _] => fail
              | _ => destruct c
              end
          end); cbn.

Lemma vertex_ext (u v : Vertex T) :
  position u = position v -> velocity u = velocity v -> force u = force v ->
  friction u = friction v -> mass u = mass v -> u = v.
Proof. destruct u, v; cbn; intros; subst; reflexivity. Qed.

Lemma particle_loop_ready (opts : Particle.Options T) (ww wh : T) (n : nat) :
  forall ps fs vs : list (Vector3 T),
  List.length ps = n -> List.length fs = n -> List.length vs = n ->
  Particle.update_loop opts ww wh n ps fs vs
  = Ok (map (fun r => fst (fst r)) (particle_steps opts ww wh ps fs vs),
        map (fun r => snd (fst r)) (particle_steps opts ww wh ps fs vs),
        map (fun r => snd r) (particle_steps opts ww wh ps fs vs)).
Proof.
  induction n as [|n IH]; intros ps fs vs Hp Hf Hv.
  - destruct ps, fs, vs; try discriminate. reflexivity.
  - destruct ps as [|p ps], fs as [|f fs], vs as [|v vs]; try discriminate.
    cbn [Particle.update_loop].
    rewrite (IH ps fs vs) by (cbn in *; lia).
    unfold particle_steps. cbn [combine map fst snd].
    destruct (Particle.step opts ww wh p f v) as [[p' f'] v']. reflexivity.
Qed.

Lemma particle_loop_short (opts : Particle.Options T) (ww wh : T) (n : nat) :
  forall ps fs vs : list (Vector3 T),
  (List.length ps < n \/ List.length fs < n \/ List.length vs < n)%nat ->
  Particle.update_loop opts ww wh n ps fs vs = Err TypeError.
Proof.
  induction n as [|n IH]; intros ps fs vs H; [lia|].
  destruct ps as [|p ps], fs as [|f fs], vs as [|v vs]; try reflexivity.
  cbn [Particle.update_loop].
  destruct (Particle.step opts ww wh p f v) as [[p' f'] v'].
  rewrite IH; [reflexivity|]. cbn in H. lia.
Qed.

Lemma particle_steps_length (opts : Particle.Options T) (ww wh : T)
    (ps fs vs : list (Vector3 T)) (n : nat) :
  List.length ps = n -> List.length fs = n -> List.length vs = n ->
  List.length (particle_steps opts ww wh ps fs vs) = n.
Proof.
  intros Hp Hf Hv. unfold particle_steps.
  rewrite length_map, !length_combine. lia.
Qed.

Lemma particle_update_ready (opts : Particle.Options T) (ww wh : T)
    (this : Particle.State T) (dt : T) :
  Particle.ready opts this ->
  exists this',
    Particle._update opts ww wh this dt = Ok this'
    /\ Particle.ready opts this'
    /\ Particle._frame this' = S (Particle._frame this)
    /\ Particle.vertices this'
       = map (fun r => fst (fst r))
           (particle_steps opts ww wh (Particle.vertices this)
              (Particle._force this) (Particle._velocity this)).
Proof.
  intros (Hp & Hv & Hf). unfold Particle._update.
  rewrite particle_loop_ready by assumption.
  eexists. split; [reflexivity|]. unfold Particle.ready.
  cbn [Particle.vertices Particle._velocity Particle._force Particle._frame].
  rewrite !length_map.
  rewrite (particle_steps_length opts ww wh _ _ _ Hp Hf Hv).
  repeat split.
Qed.

(** X14.  A run of [Particle._update] on arrays of [len] entries always
    completes, keeps the three arrays at [len] entries and adds one to
    [_frame] per frame. *)
Theorem particle_run_ready (opts : Particle.Options T) (ww wh : T)
    (deltas : list T) :
  forall this : Particle.State T,
  Particle.ready opts this ->
  exists this',
    Particle.run opts ww wh deltas this = Ok this'
    /\ Particle.ready opts this'
    /\ Particle._frame this'
       = (Particle._frame this + List.length deltas)%nat.
Proof.
  induction deltas as [|dt deltas IH]; intros this Hr.
  - exists this. cbn. rewrite Nat.add_0_r. auto.
  - destruct (particle_update_ready ww wh dt Hr)
      as (this1 & Hu & Hr1 & Hf1 & _).
    destruct (IH this1 Hr1) as (this' & Hrun & Hr' & Hf').
    exists this'. cbn [Particle.run]. rewrite Hu.
    repeat split; try apply Hr'; auto.
    rewrite Hf', Hf1. cbn [List.length]. lia.
Qed.

(** X15.  [Particle._update] raises a TypeError as soon as one of the
    three arrays has fewer than [len] entries. *)
Theorem particle_update_short (opts : Particle.Options T) (ww wh : T)
    (this : Particle.State T) (dt : T) :
  (List.length (Particle.vertices this) < Z.to_nat (Particle.len opts)
   \/ List.length (Particle._force this) < Z.to_nat (Particle.len opts)
   \/ List.length (Particle._velocity this)
      < Z.to_nat (Particle.len opts))%nat ->
  Particle._update opts ww wh this dt = Err TypeError.
Proof.
  intros H. unfold Particle._update. now rewrite particle_loop_short.
Qed.

(** X12.  The body of the loop of [Particle._update] resets the force
    before it uses it, so that what it computes does not depend on the [x]
    and [y] components of the force left by the frame before; and it never
    touches a [z] component: those of the position, the force and the
    velocity are kept. *)
Theorem particle_force_reset (opts : Particle.Options T) (ww wh : T)
    (pos f v : Vector3 T) (a b : T) :
  Particle.step opts ww wh pos (Vec3 a b (z f)) v
  = Particle.step opts ww wh pos f v
  /\ z (fst (fst (Particle.step opts ww wh pos f v))) = z pos
  /\ z (snd (fst (Particle.step opts ww wh pos f v))) = z f
  /\ z (snd (Particle.step opts ww wh pos f v)) = z v.
Proof.
  split; [reflexivity|].
  unfold Particle.step, Particle._updatePos, Particle.bounce,
    Particle._updateForce, Particle._addForce, Particle._resetForce.
  destruct pos as [px py pz], f as [fx fy fz], v as [vx vy vz].
  split_ifs; auto.
Qed.

Lemma setup_loop_lengths (trig : Trig T) (pi : Pi T)
    (opts : Particle.Options T) (ww wh : T) (random : nat -> T) (n : nat) :
  forall (k : nat) (this : Particle.State T),
  let this' := Particle.setup_loop opts ww wh random k n this in
  List.length (Particle.vertices this')
  = (List.length (Particle.vertices this) + n)%nat
  /\ List.length (Particle._velocity this')
     = (List.length (Particle._velocity this) + n)%nat
  /\ List.length (Particle._force this')
     = (List.length (Particle._force this) + n)%nat
  /\ Particle._frame this' = Particle._frame this.
Proof.
  induction n as [|n IH]; intros k this; cbn zeta.
  - cbn. rewrite !Nat.add_0_r. auto.
  - cbn [Particle.setup_loop].
    destruct (IH (5 + k)%nat
                (Particle.MkState
                   (Particle.vertices this
                    ++ [Vec3 (randFloat (random k) (lit 0 1) ww)
                          (randFloat (random (1 + k)%nat) (lit 0 1) wh)
                          (randFloat (random (2 + k)%nat)
                             (- Particle.depth opts) (Particle.depth opts))])
                   (Particle._velocity this
                    ++ [Vec3
                          (Math_cos (random (4 + k)%nat * Math_PI * lit 2 1)
                           * (random (3 + k)%nat * lit 20 1))
                          (Math_sin (random (4 + k)%nat * Math_PI * lit 2 1)
                           * (random (3 + k)%nat * lit 20 1))
                          (lit 0 1)])
                   (Particle._force this
                    ++ [Vec3 (lit 0 1) (lit 0 1) (lit 0 1)])
                   (Particle._frame this)))
      as (H1 & H2 & H3 & H4).
    cbv zeta in *. rewrite H1, H2, H3, H4. cbn.
    rewrite !length_app. cbn. repeat split; lia.
Qed.


End FurtherParticle.

(** * Further properties on binary64 *)

Module F64more.
Import F64.

Lemma leb_not_ltb (a b : float) :
  PrimFloat.leb a b = true -> PrimFloat.ltb b a = false.
Proof.
  rewrite FloatAxioms.leb_spec, FloatAxioms.ltb_spec. unfold SFleb, SFltb.
  rewrite (SFcompare_antisym (Prim2SF a) (Prim2SF b)).
  destruct (SFcompare (Prim2SF a) (Prim2SF b)) as [[| |]|]; cbn; congruence.
Qed.

(** Nothing lies both below zero and above a bound that is not negative. *)
Lemma ltb_zero_exclusive (hi a : float) :
  PrimFloat.leb PrimFloat.zero hi = true ->
  PrimFloat.ltb a PrimFloat.zero = true ->
  PrimFloat.ltb hi a = false.
Proof.
  rewrite FloatAxioms.leb_spec, !FloatAxioms.ltb_spec, Prim2SF_zero.
  unfold SFleb, SFltb.
  destruct (Prim2SF hi) as [s|s| |s m e], (Prim2SF a) as [sa|sa| |sa ma ea];
    cbn; try destruct s; try destruct sa; cbn; try congruence.
Qed.

Lemma wrap1_idempotent (b a : float) : wrap1 b (wrap1 b a) = wrap1 b a.
Proof.
  rewrite (wrap1_eq b a).
  destruct (PrimFloat.ltb b a) eqn:E1.
  - rewrite wrap1_eq, ltb_irrefl. now destruct (PrimFloat.ltb b (- b)).
  - destruct (PrimFloat.ltb a (PrimFloat.opp b)) eqn:E2.
    + rewrite wrap1_eq, ltb_irrefl. now destruct (PrimFloat.ltb b (- b)).
    + now rewrite wrap1_eq, E1, E2.
Qed.

Lemma clamp1_eq (hi a : float) :
  PrimFloat.leb PrimFloat.zero hi = true ->
  clamp1 hi a
  = if PrimFloat.ltb hi a then hi
    else if PrimFloat.ltb a PrimFloat.zero then PrimFloat.zero else a.
Proof.
  intros H. unfold clamp1.
  destruct (PrimFloat.ltb hi a); [|reflexivity].
  now rewrite (leb_not_ltb H).
Qed.

Lemma reflect1_eq (hi a w : float) :
  PrimFloat.leb PrimFloat.zero hi = true ->
  reflect1 hi a w
  = if PrimFloat.ltb hi a || PrimFloat.ltb a PrimFloat.zero
    then PrimFloat.mul w (- lit 1 1)%js else w.
Proof.
  intros H. unfold reflect1.
  destruct (PrimFloat.ltb hi a) eqn:E1; cbn.
  - now rewrite (leb_not_ltb H).
  - reflexivity.
Qed.

Lemma clamp1_within (hi a : float) :
  PrimFloat.leb PrimFloat.zero hi = true ->
  is_number (clamp1 hi a) = true ->
  within PrimFloat.zero (clamp1 hi a) hi = true.
Proof.
  intros H. rewrite (clamp1_eq a H), is_number_spec. unfold within.
  destruct (leb_number H) as [N0 Nh].
  destruct (PrimFloat.ltb hi a) eqn:E1.
  - intros _. now rewrite H, (leb_refl _ Nh).
  - destruct (PrimFloat.ltb a PrimFloat.zero) eqn:E2.
    + intros _. now rewrite H.
    + intros Na. now rewrite (not_ltb_leb Na N0 E2), (not_ltb_leb Nh Na E1).
Qed.

End F64more.

Section FurtherBinary64.

Import F64 F64more.
Local Open Scope float_scope.

Ltac split_ifs :=
  repeat (cbn;
          match goal with
          | |- context [if ?c then _ else _] =>
              lazymatch c with
              | context [if _ then _ else _] => fail
              | _ => destruct c
              end
          end); cbn.

(** X3.  The boundary block of [Canvas._vertexUpdate] is idempotent on
    binary64, whatever the bounds and the coordinates (NaN included): a
    particle that was wrapped is not moved by a second pass. *)
Theorem wrap_idempotent (opts : Defaults float) (ww wh : float)
    (v : Vertex float) :
  wrapAround opts ww wh (wrapAround opts ww wh v) = wrapAround opts ww wh v.
Proof.
  destruct (wrapAround_rest opts ww wh (wrapAround opts ww wh v))
    as (Hv & Hf & Hr & Hm).
  destruct (wrapAround_rest opts ww wh v) as (Hv' & Hf' & Hr' & Hm').
  destruct (wrapAround opts ww wh (wrapAround opts ww wh v))
    as [p1 v1 f1 r1 m1] eqn:E1.
  destruct (wrapAround opts ww wh v) as [p2 v2 f2 r2 m2] eqn:E2.
  cbn in *. subst.
  f_equal.
  pose proof (f_equal (@position float) E1) as P1.
  pose proof (f_equal (@position float) E2) as P2.
  rewrite wrapAround_position in P1, P2. cbn in *.
  rewrite <- P1, <- P2. cbn. now rewrite !wrap1_idempotent.
Qed.

Lemma bounce_binary64 (ww wh : float) (pos v : Vector3 float) :
  Particle.bounce ww wh pos v
  = (Vec3 (clamp1 ww (x pos)) (clamp1 wh (y pos)) (z pos),
     Vec3 (reflect1 ww (x pos) (x v)) (reflect1 wh (y pos) (y v)) (z v)).
Proof.
  unfold Particle.bounce, clamp1, reflect1.
  change (@lit float Float64 0 1) with PrimFloat.zero.
  destruct pos as [px py pz], v as [vx vy vz].
  split_ifs; reflexivity.
Qed.

End FurtherBinary64.

Section ParticleBinary64.

Import F64 F64more.
Local Open Scope float_scope.

Lemma step_bounce (opts : Particle.Options float) (ww wh : float)
    (pos f v : Vector3 float) :
  exists pre w,
    Particle.step opts ww wh pos f v
    = (Vec3 (clamp1 ww (x pre)) (clamp1 wh (y pre)) (z pre),
       Particle._updateForce opts
         (Particle._addForce (Particle._resetForce f) (lit 0 1)
            (- lit 1 2)%js) v,
       Vec3 (reflect1 ww (x pre) (x w)) (reflect1 wh (y pre) (y w)) (z w)).
Proof.
  unfold Particle.step.
  destruct (Particle._updatePos pos _ v) as [pre w].
  exists pre, w. now rewrite bounce_binary64.
Qed.

(** X11.  With a window size that is not negative, every call of
    [Particle._update] on arrays of [len] entries completes and leaves every
    particle whose coordinates are numbers with [0 <= x <= ww] and
    [0 <= y <= wh]. *)
Theorem particle_walls (opts : Particle.Options float) (ww wh : float)
    (this : Particle.State float) (dt : float) :
  Particle.ready opts this ->
  (0 <=? ww) = true -> (0 <=? wh) = true ->
  exists this',
    Particle._update opts ww wh this dt = Ok this'
    /\ Forall (fun p =>
                 (is_number (x p) = true -> within 0 (x p) ww = true)
                 /\ (is_number (y p) = true -> within 0 (y p) wh = true))
         (Particle.vertices this').
Proof.
  intros Hr Hw Hh.
  destruct (particle_update_ready ww wh dt Hr) as (this' & Hu & _ & _ & Hv).
  exists this'. split; [exact Hu|]. rewrite Hv.
  apply Forall_map, Forall_forall. intros r Hin.
  unfold particle_steps in Hin. apply in_map_iff in Hin.
  destruct Hin as ([p [f v]] & <- & _). cbn [fst snd].
  destruct (step_bounce opts ww wh p f v) as (pre & w & ->). cbn [fst x y].
  split; now apply clamp1_within.
Qed.

(** X11 on the sample particle system. *)
Lemma particle_walls_witness :
  (Particle.ready sample_options sample_particles
   /\ (0 <=? 500) = true /\ (0 <=? 400) = true)
  /\ exists this',
       Particle._update sample_options 500 400 sample_particles 1 = Ok this'
       /\ Forall (fun p =>
                    (is_number (x p) = true -> within 0 (x p) 500 = true)
                    /\ (is_number (y p) = true -> within 0 (y p) 400 = true))
            (Particle.vertices this').
Proof.
  assert (Particle.ready sample_options sample_particles) as Hr
    by (repeat split).
  split; [repeat split|].
  apply (particle_walls (opts := sample_options) (this := sample_particles)
           1 Hr); reflexivity.
Defined.

Lemma bounces_spec (hi a w : float) :
  (0 <=? hi) = true -> bounces hi a (clamp1 hi a) w (reflect1 hi a w).
Proof.
  intros H. rewrite (clamp1_eq a H), (reflect1_eq a w H).
  unfold bounces. split; [|split].
  - now intros ->.
  - intros Ha. now rewrite (ltb_zero_exclusive H Ha), Ha.
  - now intros -> ->.
Qed.

(** X13.  With a window size that is not negative, the walls of
    [Particle._update] act on each axis alone: a coordinate above the bound
    is set to the bound and one below zero to zero, and the velocity
    component is multiplied by [-1]; any other coordinate is kept with its
    velocity; the [z] components are kept. *)
Theorem particle_bounce_reflects (ww wh : float) (pos v : Vector3 float) :
  (0 <=? ww) = true -> (0 <=? wh) = true ->
  let pos' := fst (Particle.bounce ww wh pos v) in
  let v' := snd (Particle.bounce ww wh pos v) in
  bounces ww (x pos) (x pos') (x v) (x v')
  /\ bounces wh (y pos) (y pos') (y v) (y v')
  /\ z pos' = z pos /\ z v' = z v.
Proof.
  intros Hw Hh. cbv zeta. rewrite bounce_binary64. cbn [fst snd x y z].
  split; [now apply bounces_spec|].
  split; [now apply bounces_spec|]. split; reflexivity.
Qed.

(** X13 on a particle that has left through the right wall and through
    the floor. *)
Lemma particle_bounce_reflects_witness :
  ((0 <=? 500) = true /\ (0 <=? 400) = true
   /\ (500 <? 502) = true /\ (-3 <? 0) = true)
  /\ fst (Particle.bounce 500 400 (Vec3 502 (-3) 0) (Vec3 3 (-4) 0))
     = Vec3 500 0 0
  /\ snd (Particle.bounce 500 400 (Vec3 502 (-3) 0) (Vec3 3 (-4) 0))
     = Vec3 (-3) 4 0.
Proof.
  split; [repeat split|].
  destruct (@particle_bounce_reflects 500 400 (Vec3 502 (-3) 0)
              (Vec3 3 (-4) 0) eq_refl eq_refl)
    as ((Hx & _) & (_ & Hy & _) & Hz & Hvz).
  destruct (Hx eq_refl) as [Px Vx]. destruct (Hy eq_refl) as [Py Vy].
  destruct (Particle.bounce 500 400 (Vec3 502 (-3) 0) (Vec3 3 (-4) 0))
    as [[px py pz] [vx vy vz]].
  cbn in *. subst. split; reflexivity.
Defined.

End ParticleBinary64.

(** ** Further runs on sample data *)

Section FurtherSamples.

Local Open Scope float_scope.

(** X1 at the sample canvas, for two frames. *)
Lemma run_keeps_particles_witness :
  booted defaults sample_canvas
  /\ exists vs this' vs',
       vertices sample_canvas = Some vs
       /\ run (trig := flatTrig) defaults
            [(sample_frame, 1); (sample_frame, 1)] sample_canvas = Ok this'
       /\ vertices this' = Some vs'
       /\ List.length vs' = List.length vs
       /\ map (@friction float) vs' = map (@friction float) vs
       /\ map (@mass float) vs' = map (@mass float) vs
       /\ _frameCount this' = (_frameCount sample_canvas + 2)%nat.
Proof.
  split; [exact sample_booted|].
  exact (@run_keeps_particles float _ flatTrig defaults
           [(sample_frame, 1); (sample_frame, 1)] sample_canvas
           sample_booted).
Defined.

(** X2 on a canvas that was not booted. *)
Lemma update_needs_vertices_witness :
  vertices (@new_Canvas float _) = None
  /\ _update (trig := flatTrig) defaults sample_frame new_Canvas 1
     = Err TypeError
  /\ run (trig := flatTrig) defaults
       [(sample_frame, 1); (sample_frame, 1)] new_Canvas
     = Err TypeError.
Proof.
  destruct (@update_needs_vertices float _ flatTrig defaults sample_frame
              new_Canvas 1 [(sample_frame, 1)]) as (H1 & _ & _ & H4).
  split; [reflexivity|].
  split; [exact (H1 eq_refl) | exact (H4 _ (H1 eq_refl))].
Defined.

(** X14 on the sample particle system, for three frames. *)
Lemma particle_run_ready_witness :
  Particle.ready sample_options sample_particles
  /\ exists this',
       Particle.run sample_options 500 400 [1; 1; 1] sample_particles
       = Ok this'
       /\ Particle.ready sample_options this'
       /\ Particle._frame this' = (Particle._frame sample_particles + 3)%nat.
Proof.
  assert (Particle.ready sample_options sample_particles) as Hr
    by (repeat split).
  split; [exact Hr|].
  exact (@particle_run_ready float _ sample_options 500 400 [1; 1; 1]
           sample_particles Hr).
Defined.

(** X15 on a particle system whose [setup] was not run. *)
Lemma particle_update_short_witness :
  (List.length (Particle.vertices (@Particle.new_Particle float))
   < Z.to_nat (Particle.len sample_options))%nat
  /\ Particle._update sample_options 500 400 Particle.new_Particle 1
     = Err TypeError.
Proof.
  assert (List.length (Particle.vertices (@Particle.new_Particle float))
          < Z.to_nat (Particle.len sample_options))%nat as H
    by (cbn; lia).
  split; [exact H|].
  apply (@particle_update_short float _ sample_options 500 400
           Particle.new_Particle 1).
  left. exact H.
Defined.

End FurtherSamples.

(** * Further properties in exact arithmetic *)

Section FurtherExact.

Local Open Scope R_scope.

Lemma exact_booted : booted defaults exact_canvas.
Proof.
  eexists. split; [reflexivity|]. apply boot_vertices_length.
Defined.

(** *** The attractor *)

Lemma elapsed_forward (frames : list (Frame R * R)) :
  forall start : R,
  Forall forward frames -> start <= elapsed frames start.
Proof.
  induction frames as [|[env dt] frames IH]; intros s H; cbn; [lra|].
  inversion H as [|f fs [Hd Ht] Hfs]; subst. cbn in Hd, Ht.
  specialize (IH (s + clockDelta env * (1 / 10) * dt) Hfs).
  unfold elapsed in IH. cbn in IH.
  assert (0 <= clockDelta env * (1 / 10) * dt).
  { apply Rmult_le_pos; [|assumption]. apply Rmult_le_pos; lra. }
  lra.
Qed.

(** X5.  When no clock reading and no [deltaTime] is negative, [_tick]
    never decreases over a run of frames: once it has reached 1 the branch
    [this._tick < 1] of [_update] is never taken again. *)
Theorem warmup_never_returns (opts : Defaults R)
    (frames : list (Frame R * R)) (this : Canvas R) :
  booted opts this ->
  Forall forward frames ->
  exists this',
    run opts frames this = Ok this'
    /\ tick_value (_tick this) <= tick_value (_tick this')
    /\ (1 <= tick_value (_tick this) -> 1 <= tick_value (_tick this')).
Proof.
  intros Hb Hf.
  destruct (run_elapsed frames Hb) as (this' & Hr & Ht).
  exists this'. split; [exact Hr|]. rewrite Ht.
  pose proof (elapsed_forward (tick_value (_tick this)) Hf). split; lra.
Qed.

(** X4.  For a [deltaTime] and a window size that are not negative, the
    centre of force that [_update] computes has [z = 0]; while [_tick] is
    below 1 its [x] and [y] are within [50 * deltaTime] of zero, and from
    then on within [ww / 2 * deltaTime] and [wh / 2 * deltaTime]. *)
Theorem attractor_amplitude (opts : Defaults R) (env : Frame R)
    (this : Canvas R) (dt : R) :
  booted opts this ->
  0 <= dt -> 0 <= windowWidth env -> 0 <= windowHeight env ->
  exists this',
    _update opts env this dt = Ok this'
    /\ z (_posOfForce this') = 0
    /\ (tick_value (_tick this') < 1 ->
        Rabs (x (_posOfForce this')) <= 50 * dt
        /\ Rabs (y (_posOfForce this')) <= 50 * dt)
    /\ (1 <= tick_value (_tick this') ->
        Rabs (x (_posOfForce this')) <= windowWidth env / 2 * dt
        /\ Rabs (y (_posOfForce this')) <= windowHeight env / 2 * dt).
Proof.
  intros Hb Hdt Hw Hh.
  destruct (update_attractor env dt Hb) as (this' & Hu & _ & Hp).
  exists this'. split; [exact Hu|]. rewrite Hp. clear Hp.
  remember (tick_value (_tick this')) as t eqn:Et. clear Et.
  cbn. unfold Rltb.
  pose proof (COS_bound (t * speed_horizontal opts)) as [C1 C2].
  pose proof (SIN_bound (t * speed_vertical opts)) as [S1 S2].
  remember (cos (t * speed_horizontal opts)) as c eqn:Ec. clear Ec.
  remember (sin (t * speed_vertical opts)) as s eqn:Es. clear Es.
  destruct (Rlt_dec t (1 / 1)) as [Ht|Ht]; cbn.
  - split; [lra|]. split; [|intros; lra].
    intros _.
    assert (- dt <= c * dt <= dt) by (split; nra).
    assert (- dt <= s * dt <= dt) by (split; nra).
    split; apply Rabs_le; split; lra.
  - split; [lra|]. split; [intros; lra|].
    intros _.
    remember (windowWidth env) as w eqn:Ew. clear Ew.
    remember (windowHeight env) as h eqn:Eh. clear Eh.
    assert (0 <= w * dt) by now apply Rmult_le_pos.
    assert (0 <= h * dt) by now apply Rmult_le_pos.
    assert (- (w * dt) <= c * (w * dt) <= w * dt) by (split; nra).
    assert (- (h * dt) <= s * (h * dt) <= h * dt) by (split; nra).
    split; apply Rabs_le; split; lra.
Qed.

(** X5 at the sample canvas over the reals. *)
Lemma warmup_never_returns_witness :
  (booted defaults exact_canvas /\ Forall forward [(exact_frame, 1)])
  /\ exists this',
       run defaults [(exact_frame, 1)] exact_canvas = Ok this'
       /\ tick_value (_tick exact_canvas) <= tick_value (_tick this')
       /\ (1 <= tick_value (_tick exact_canvas) ->
           1 <= tick_value (_tick this')).
Proof.
  assert (Forall forward [(exact_frame, 1)]) as Hf.
  { repeat constructor; cbn; lra. }
  split; [split; [exact exact_booted | exact Hf]|].
  exact (@warmup_never_returns defaults [(exact_frame, 1)] exact_canvas
           exact_booted Hf).
Defined.

(** X4 at the sample canvas over the reals. *)
Lemma attractor_amplitude_witness :
  (booted defaults exact_canvas /\ 0 <= 1 /\ 0 <= windowWidth exact_frame
   /\ 0 <= windowHeight exact_frame)
  /\ exists this',
       _update defaults exact_frame exact_canvas 1 = Ok this'
       /\ z (_posOfForce this') = 0
       /\ (tick_value (_tick this') < 1 ->
           Rabs (x (_posOfForce this')) <= 50 * 1
           /\ Rabs (y (_posOfForce this')) <= 50 * 1)
       /\ (1 <= tick_value (_tick this') ->
           Rabs (x (_posOfForce this')) <= windowWidth exact_frame / 2 * 1
           /\ Rabs (y (_posOfForce this')) <= windowHeight exact_frame / 2 * 1).
Proof.
  assert (0 <= windowWidth exact_frame) as Hw by (cbn; lra).
  assert (0 <= windowHeight exact_frame) as Hh by (cbn; lra).
  assert (0 <= 1) as H1 by lra.
  split; [repeat split; (exact exact_booted || assumption)|].
  exact (@attractor_amplitude defaults exact_frame exact_canvas 1
           exact_booted H1 Hw Hh).
Defined.

(** *** The force helpers *)

(** X6.  Over the reals, the guard of the force helpers rejects a particle
    exactly when the radius is above zero and the particle is farther from
    the centre than the radius, and a rejected particle is returned as it
    is; a radius that is zero or negative rejects no particle. *)
Theorem radius_guard (v : Vertex R) (cx cy cz radius scale : R) :
  (closeEnough (offset v cx cy cz) radius = false
   <-> 0 < radius < length (offset v cx cy cz))
  /\ (0 < radius < length (offset v cx cy cz) ->
      attraction v cx cy cz radius scale = v
      /\ repulsion v cx cy cz radius scale = v)
  /\ (radius <= 0 -> closeEnough (offset v cx cy cz) radius = true).
Proof.
  assert (closeEnough (offset v cx cy cz) radius = false
          <-> 0 < radius < length (offset v cx cy cz)) as H.
  { unfold closeEnough.
    remember (length (offset v cx cy cz)) as d eqn:Ed. clear Ed.
    cbn. unfold Rltb.
    destruct (Rlt_dec (0 / 1) radius) as [H0|H0];
      [destruct (Rlt_dec radius d) as [H1|H1]|];
      split; intros H; try discriminate; try reflexivity; lra. }
  split; [exact H|]. split.
  - intros Hr. apply H in Hr.
    rewrite attraction_eq, repulsion_eq, Hr. split; reflexivity.
  - intros Hr. apply not_false_is_true. intros E. apply H in E. lra.
Qed.

(** X6 for a particle at the distance 11 of the centre, with the radius
    10. *)
Lemma radius_guard_witness :
  (0 < 10 < length (offset (at_pos 0 0 11) 0 0 0))
  /\ attraction (at_pos 0 0 11) 0 0 0 10 1 = at_pos 0 0 11
  /\ repulsion (at_pos 0 0 11) 0 0 0 10 1 = at_pos 0 0 11.
Proof.
  assert (length (offset (at_pos 0 0 11) 0 0 0) = 11) as L
    by (apply length_at_pos; lra).
  assert (0 < 10 < length (offset (at_pos 0 0 11) 0 0 0)) as H
    by (rewrite L; lra).
  split; [exact H|].
  exact (proj1 (proj2 (@radius_guard (at_pos 0 0 11) 0 0 0 10 1)) H).
Defined.







Lemma repulsion_force_center (v : Vertex R) (cx cy cz radius scale : R) :
  0 < radius ->
  offset v cx cy cz = Vec3 0 0 0 ->
  force (repulsion v cx cy cz radius scale)
  = Vec3 (x (force v)) (y (force v)) (y (force v)).
Proof.
  intros Hr E.
  assert (length (offset v cx cy cz) = 0) as L.
  { rewrite E. unfold length. cbn.
    replace (0 * 0 + 0 * 0 + 0 * 0) with 0 by lra. apply sqrt_0. }
  rewrite repulsion_eq, closeEnough_inside by (rewrite ?L; lra).
  unfold normalize, pct. rewrite L, E. cbn.
  destruct (Req_dec_T 0 0) as [_|N]; [|lra].
  cbn. f_equal; lra.
Qed.

Lemma wrap1_inside (b a : R) : - b <= a <= b -> wrap1 b a = a.
Proof.
  intros H. unfold wrap1. cbn. unfold Rltb.
  destruct (Rlt_dec b a); [lra|].
  destruct (Rlt_dec a (- b)); [lra|reflexivity].
Qed.

(** X9.  Over the reals, a particle at rest at the origin, with no force
    accumulated, is a fixed point of [_vertexUpdate] when the centre of
    force is the origin too, in both phases and for every [deltaTime]. *)
Theorem rest_at_origin (opts : Defaults R) (ww wh : R) (phase : ForcePhase)
    (fr m dt : R) :
  0 <= ww -> 0 <= wh -> 0 <= depth opts ->
  let v := MkVertex (Vec3 0 0 0) (Vec3 0 0 0) (Vec3 0 0 0) fr m in
  _vertexUpdate opts ww wh phase v (Vec3 0 0 0) dt = v.
Proof.
  intros Hw Hh Hd. cbv zeta.
  set (v := MkVertex (Vec3 0 0 0) (Vec3 0 0 0) (Vec3 0 0 0) fr m).
  assert (recombineForce v dt = v) as E1.
  { unfold recombineForce, set_force, v. cbn. f_equal. f_equal; lra. }
  assert (forall c radius scale, 0 < radius -> c = 0 ->
            attraction v c c c radius scale = v) as EA.
  { intros c radius scale Hr ->. apply vertex_ext;
      try apply attraction_rest.
    rewrite attraction_force_center; [reflexivity|exact Hr|].
    unfold offset, v. cbn. f_equal; lra. }
  assert (forall c radius scale, 0 < radius -> c = 0 ->
            repulsion v c c c radius scale = v) as ER.
  { intros c radius scale Hr ->. apply vertex_ext;
      try apply repulsion_rest.
    rewrite repulsion_force_center; [reflexivity|exact Hr|].
    unfold offset, v. cbn. f_equal; lra. }
  assert (applyPhase phase v (Vec3 0 0 0) = v) as E2.
  { destruct phase; cbn [applyPhase x y z];
      rewrite EA by (cbn; lra); rewrite ER by (cbn; lra); reflexivity. }
  assert (integrate v dt = v) as E3.
  { unfold integrate, set_velocity, set_position, v. cbn.
    f_equal; f_equal; lra. }
  unfold _vertexUpdate. rewrite E1, E2, E3.
  apply vertex_ext; try apply wrapAround_rest.
  rewrite wrapAround_position. unfold v. cbn [position x y z].
  rewrite !wrap1_inside by lra. reflexivity.
Qed.

(** X9 in a 500 x 400 window. *)
Lemma rest_at_origin_witness :
  (0 <= 500 /\ 0 <= 400 /\ 0 <= depth (@defaults R _))
  /\ _vertexUpdate defaults 500 400 Attraction (at_pos 0 0 0) (Vec3 0 0 0) 1
     = at_pos 0 0 0.
Proof.
  assert (0 <= depth (@defaults R _)) as Hd by (cbn; lra).
  split; [repeat split; (lra || exact Hd)|].
  apply (@rest_at_origin defaults 500 400 Attraction (1 / 100) 1 1);
    (lra || exact Hd).
Defined.

Lemma randFloat_between (draw b : R) :
  0 <= draw <= 1 -> 0 <= b -> - b <= randFloat draw (- b) b <= b.
Proof. intros Hd Hb. unfold randFloat. cbn. split; nra. Qed.

Lemma boot_vertices_inside (opts : Defaults R) (ww wh : R) (random : nat -> R)
    (n : nat) :
  (forall k, 0 <= random k <= 1) ->
  0 <= ww -> 0 <= wh -> 0 <= depth opts ->
  forall k, Forall (inside opts ww wh) (boot_vertices opts ww wh random k n).
Proof.
  intros Hr Hw Hh Hd.
  induction n as [|n IH]; intros k; cbn [boot_vertices]; constructor.
  - unfold inside. cbn [position x y z].
    repeat split; apply randFloat_between; auto.
  - apply IH.
Qed.

(** *** Allocation *)

(** X10.  Over the reals, with draws of the random source between 0 and 1
    and bounds that are not negative, [boot] places every particle within
    [-ww, ww] x [-wh, wh] x [-depth, depth]. *)
Theorem boot_within_bounds (opts : Defaults R) (ww wh : R)
    (random : nat -> R) (this : Canvas R) :
  (forall k, 0 <= random k <= 1) ->
  0 <= ww -> 0 <= wh -> 0 <= depth opts ->
  exists c vs,
    boot opts ww wh random this = Ok c
    /\ vertices c = Some vs
    /\ booted opts c
    /\ Forall (inside opts ww wh) vs.
Proof.
  intros Hr Hw Hh Hd. eexists. eexists.
  split; [reflexivity|]. split; [reflexivity|]. split.
  - eexists. split; [reflexivity|]. apply boot_vertices_length.
  - now apply boot_vertices_inside.
Qed.

(** X10 in a 500 x 400 window. *)
Lemma boot_within_bounds_witness :
  ((forall k, 0 <= exact_random k <= 1) /\ 0 <= 500 /\ 0 <= 400
   /\ 0 <= depth (@defaults R _))
  /\ exists c vs,
       boot defaults 500 400 exact_random new_Canvas = Ok c
       /\ vertices c = Some vs
       /\ booted defaults c
       /\ Forall (inside defaults 500 400) vs.
Proof.
  assert (forall k, 0 <= exact_random k <= 1) as Hr
    by (intros k; unfold exact_random; lra).
  assert (0 <= depth (@defaults R _)) as Hd by (cbn; lra).
  assert (0 <= 500) as Hw by lra.
  assert (0 <= 400) as Hh by lra.
  split; [repeat split; (assumption || apply Hr)|].
  exact (@boot_within_bounds defaults 500 400 exact_random new_Canvas
           Hr Hw Hh Hd).
Defined.

(** *** The class [Particle] and the sphere *)

Lemma setup_loop_bounds (opts : Particle.Options R) (ww wh : R)
    (random : nat -> R) (n : nat) :
  (forall k, 0 <= random k <= 1) -> 0 <= ww -> 0 <= wh ->
  forall (k : nat) (this : Particle.State R),
  Forall (fun p => 0 <= x p <= ww /\ 0 <= y p <= wh) (Particle.vertices this) ->
  Forall (fun v => length v <= 20) (Particle._velocity this) ->
  Forall (fun f => f = Vec3 0 0 0) (Particle._force this) ->
  let this' := Particle.setup_loop opts ww wh random k n this in
  Forall (fun p => 0 <= x p <= ww /\ 0 <= y p <= wh) (Particle.vertices this')
  /\ Forall (fun v => length v <= 20) (Particle._velocity this')
  /\ Forall (fun f => f = Vec3 0 0 0) (Particle._force this').
Proof.
  intros Hr Hw Hh.
  induction n as [|n IH]; intros k this Hp Hv Hf; cbv zeta; [cbn; auto|].
  cbn [Particle.setup_loop]. apply IH;
    cbn [Particle.vertices Particle._velocity Particle._force];
    apply Forall_app; split; auto; constructor; auto.
  - unfold randFloat. cbn.
    pose proof (Hr k). pose proof (Hr (S k)). split; split; nra.
  - unfold length. cbn.
    pose proof (Hr (S (S (S k)))) as H3.
    remember (random (S (S (S k)))) as u eqn:Eu in *. clear Eu.
    remember (random (S (S (S (S k)))) * PI * (2 / 1)) as r eqn:Er. clear Er.
    pose proof (sin2_cos2 r) as Hsc. unfold Rsqr in Hsc.
    assert (0 <= u * (20 / 1)) as Hl by lra.
    replace (cos r * (u * (20 / 1)) * (cos r * (u * (20 / 1)))
             + sin r * (u * (20 / 1)) * (sin r * (u * (20 / 1)))
             + 0 / 1 * (0 / 1))
      with ((sin r * sin r + cos r * cos r)
            * ((u * (20 / 1)) * (u * (20 / 1)))) by field.
    rewrite Hsc, Rmult_1_l, (sqrt_square _ Hl). lra.
  - cbn. f_equal; lra.
Qed.

Lemma setup_ready (opts : Particle.Options R) (ww wh : R)
    (random : nat -> R) :
  Particle.ready opts (Particle.setup opts ww wh random Particle.new_Particle).
Proof.
  unfold Particle.setup, Particle.ready.
  destruct (setup_loop_lengths ExactTrig ExactPi opts ww wh random
              (Z.to_nat (Particle.len opts)) 0 Particle.new_Particle)
    as (H1 & H2 & H3 & _).
  cbv zeta in *. rewrite H1, H2, H3. cbn. auto.
Qed.

(** X16.  Over the reals, with draws of the random source between 0 and
    1 and a window size that is not negative, [Particle.setup] on a new
    particle system fills the three arrays with [len] entries each: positions
    with [0 <= x <= ww] and [0 <= y <= wh], velocities of magnitude at most
    20 and zero forces. *)
Theorem particle_setup_bounds (opts : Particle.Options R) (ww wh : R)
    (random : nat -> R) :
  (forall k, 0 <= random k <= 1) -> 0 <= ww -> 0 <= wh ->
  let this := Particle.setup opts ww wh random Particle.new_Particle in
  Particle.ready opts this
  /\ Forall (fun p => 0 <= x p <= ww /\ 0 <= y p <= wh)
       (Particle.vertices this)
  /\ Forall (fun v => length v <= 20) (Particle._velocity this)
  /\ Forall (fun f => f = Vec3 0 0 0) (Particle._force this).
Proof.
  intros Hr Hw Hh. cbv zeta. split; [apply setup_ready|].
  unfold Particle.setup. apply setup_loop_bounds; auto; constructor.
Qed.



(** X16 in a 500 x 400 window. *)
Lemma particle_setup_bounds_witness :
  ((forall k, 0 <= exact_random k <= 1) /\ 0 <= 500 /\ 0 <= 400)
  /\ Forall (fun v => length v <= 20)
       (Particle._velocity
          (Particle.setup Particle.defaults 500 400 exact_random
             Particle.new_Particle)).
Proof.
  assert (forall k, 0 <= exact_random k <= 1) as Hr
    by (intros k; unfold exact_random; lra).
  assert (0 <= 500) as Hw by lra.
  assert (0 <= 400) as Hh by lra.
  split; [repeat split; (assumption || apply Hr)|].
  exact (proj1 (proj2 (proj2
           (@particle_setup_bounds Particle.defaults 500 400 exact_random
              Hr Hw Hh)))).
Defined.




End FurtherExact.
